(** * networkfs-manager: the endpoint reconciler

    A shallow embedding of [pkg/controller/endpoint/controller.go] and a
    verification of its handler [OnEndpointChange].

    The handler talks to three external collaborators: the
    NetworkFilesystem client ([Get], [UpdateStatus]), the Service client
    ([Get]) and the wall clock ([metav1.Now]).  They are modelled by one
    explicit [World] that is threaded through the handler: two object
    stores, a fault plan that can make any request fail, a clock, and the
    log of the requests issued so far together with their outcome. *)

From stdpp Require Import gmap strings list.

Open Scope string_scope.

(** ** k8s.io/apimachinery/pkg/apis/meta/v1 *)
Module metav1.

(** [metav1.Time]: an instant, compared by value. *)
Definition Time := Z.

(** The part of [metav1.ObjectMeta] the handler reads. *)
Record ObjectMeta := mkObjectMeta {
  Name : string;
  Namespace : string;
  DeletionTimestamp : option Time;   (* *metav1.Time, nil = None *)
}.

#[export] Instance ObjectMeta_eq_dec : EqDecision ObjectMeta.
Proof. solve_decision. Defined.

End metav1.
Export metav1.

(** ** k8s.io/api/core/v1 *)
Module corev1.

(** [type ConditionStatus string] *)
Definition ConditionStatus := string.
Definition ConditionTrue : ConditionStatus := "True".

(** [ClusterIPNone]: the cluster IP of a headless service. *)
Definition ClusterIPNone : string := "None".

Record EndpointAddress := mkEndpointAddress {
  IP : string;
  Hostname : string;
}.

Record EndpointSubset := mkEndpointSubset {
  Addresses : list EndpointAddress;
  NotReadyAddresses : list EndpointAddress;
}.

Record Endpoints := mkEndpoints {
  ep_ObjectMeta : ObjectMeta;
  Subsets : list EndpointSubset;
}.

Record ServiceSpec := mkServiceSpec {
  ClusterIP : string;
}.

Record Service := mkService {
  svc_ObjectMeta : ObjectMeta;
  svc_Spec : ServiceSpec;
}.

End corev1.
Export corev1.

(** ** pkg/apis/harvesterhci.io/v1beta1

    The handler only uses this package; its types are given here with the
    fields the handler touches, and its named string constants are
    modelled from the specification. *)
Module networkfsv1.

(** Go declares these as named string types, so the zero value (the empty
    string of a freshly created resource) and foreign values exist. *)
Definition NetworkFSState := string.
Definition EndpointStatus := string.
Definition NetworkFSType := string.
Definition ConditionType := string.

(** Modelled from the spec: the value of [NetworkFSStateEnabled], declared
    in the absent API package ("only the value Enabled authorizes this
    reconciler to act"). *)
Definition NetworkFSStateEnabled : NetworkFSState := "Enabled".

(** Modelled from the spec: the value of [NetworkFSStateEnabling], declared
    in the absent API package ("set to Enabling by every status update"). *)
Definition NetworkFSStateEnabling : NetworkFSState := "Enabling".

(** Modelled from the spec: the value of [EndpointStatusReady], declared in
    the absent API package ("enum {Ready, NotReady}"). *)
Definition EndpointStatusReady : EndpointStatus := "Ready".

(** Modelled from the spec: the value of [EndpointStatusNotReady], declared
    in the absent API package ("enum {Ready, NotReady}"). *)
Definition EndpointStatusNotReady : EndpointStatus := "NotReady".

(** Modelled from the spec: the value of [NetworkFSTypeNFS], declared in
    the absent API package ("fixed to NFS by this core"). *)
Definition NetworkFSTypeNFS : NetworkFSType := "NFS".

(** Modelled from the spec: the value of [ConditionTypeReady], declared in
    the absent API package (a "Ready" condition). *)
Definition ConditionTypeReady : ConditionType := "Ready".

(** Modelled from the spec: the value of [ConditionTypeNotReady], declared
    in the absent API package (a condition of type "NotReady"). *)
Definition ConditionTypeNotReady : ConditionType := "NotReady".

(** Modelled from the spec: the value of [ConditionTypeEndpointChanged],
    declared in the absent API package (an "EndpointChanged" condition). *)
Definition ConditionTypeEndpointChanged : ConditionType := "EndpointChanged".

(** [NetworkFSCondition]; the Go fields are Type, Status,
    LastTransitionTime, Reason and Message. *)
Record NetworkFSCondition := mkCondition {
  cond_Type : ConditionType;
  cond_Status : ConditionStatus;
  cond_LastTransitionTime : Time;
  cond_Reason : string;
  cond_Message : string;
}.

Record NetworkFSSpec := mkSpec {
  DesiredState : NetworkFSState;
}.

(** [NetworkFSStatus]; the Go fields are NetworkFSConds, Endpoint, Status,
    Type and State. *)
Record NetworkFSStatus := mkStatus {
  NetworkFSConds : list NetworkFSCondition;
  Endpoint : string;
  st_Status : EndpointStatus;
  st_Type : NetworkFSType;
  st_State : NetworkFSState;
}.

Record NetworkFilesystem := mkNetworkFilesystem {
  fs_ObjectMeta : ObjectMeta;
  Spec : NetworkFSSpec;
  Status : NetworkFSStatus;
}.

#[export] Instance NetworkFSCondition_eq_dec : EqDecision NetworkFSCondition.
Proof. solve_decision. Defined.
#[export] Instance NetworkFSSpec_eq_dec : EqDecision NetworkFSSpec.
Proof. solve_decision. Defined.
#[export] Instance NetworkFSStatus_eq_dec : EqDecision NetworkFSStatus.
Proof. solve_decision. Defined.
#[export] Instance NetworkFilesystem_eq_dec : EqDecision NetworkFilesystem.
Proof. solve_decision. Defined.

(** Assignments to the fields of [networkFSCpy.Status], one setter per
    assigned field. *)
Definition set_Endpoint (v : string) (o : NetworkFilesystem) : NetworkFilesystem :=
  let s := Status o in
  mkNetworkFilesystem (fs_ObjectMeta o) (Spec o)
    (mkStatus (NetworkFSConds s) v (st_Status s) (st_Type s) (st_State s)).

Definition set_Status (v : EndpointStatus) (o : NetworkFilesystem) : NetworkFilesystem :=
  let s := Status o in
  mkNetworkFilesystem (fs_ObjectMeta o) (Spec o)
    (mkStatus (NetworkFSConds s) (Endpoint s) v (st_Type s) (st_State s)).

Definition set_Type (v : NetworkFSType) (o : NetworkFilesystem) : NetworkFilesystem :=
  let s := Status o in
  mkNetworkFilesystem (fs_ObjectMeta o) (Spec o)
    (mkStatus (NetworkFSConds s) (Endpoint s) (st_Status s) v (st_State s)).

Definition set_State (v : NetworkFSState) (o : NetworkFilesystem) : NetworkFilesystem :=
  let s := Status o in
  mkNetworkFilesystem (fs_ObjectMeta o) (Spec o)
    (mkStatus (NetworkFSConds s) (Endpoint s) (st_Status s) (st_Type s) v).

Definition set_NetworkFSConds (v : list NetworkFSCondition) (o : NetworkFilesystem)
  : NetworkFilesystem :=
  let s := Status o in
  mkNetworkFilesystem (fs_ObjectMeta o) (Spec o)
    (mkStatus v (Endpoint s) (st_Status s) (st_Type s) (st_State s)).

End networkfsv1.
Export networkfsv1.

(** ** pkg/utils *)
Module utils.

(** Modelled from the spec: the constant [utils.LHNameSpace], declared in
    the absent package pkg/utils; the spec only calls it "a fixed
    well-known namespace".  No theorem below depends on its value. *)
Definition LHNameSpace : string := "longhorn-system".

(** Modelled from the spec: the helper [utils.UpdateNetworkFSConds], whose
    source is in the absent package pkg/utils.  The spec gives the history
    "append/update semantics keyed by condition type": the record of the
    same Type is replaced where it stands (the most recent wins, so its
    timestamp and message are those of the new record), and a record of a
    Type not yet in the history is appended at the end. *)
Fixpoint UpdateNetworkFSConds (curConds : list NetworkFSCondition)
    (c : NetworkFSCondition) : list NetworkFSCondition :=
  match curConds with
  | [] => [c]
  | cond :: rest =>
      if decide (cond_Type cond = cond_Type c) then c :: rest
      else cond :: UpdateNetworkFSConds rest c
  end.

End utils.
Export utils.

(** ** The cluster the handler runs against *)
Module cluster.

(** A Go [error] value as returned by a client. *)
Inductive error :=
| NotFound (kind ns name : string)
| Failure (msg : string).

(** The pair [(value, err)] a client call returns. *)
Inductive result (A : Type) :=
| Ok (a : A)
| Err (e : error).
Arguments Ok {A} a.
Arguments Err {A} e.

(** The three requests the handler can send. *)
Inductive Request :=
| GetNetworkFilesystem (ns name : string)
| GetService (ns name : string)
| UpdateStatus (obj : NetworkFilesystem).

(** What is observable around one handler: the two stores, keyed by
    (namespace, name); [faults], which makes a request fail with the given
    error whatever the stores hold; [wallclock], the instant the i-th read
    of the clock returns, with [ticks] reads done so far; and [log], the
    requests sent so far, oldest first, each with the error it returned. *)
Record World := mkWorld {
  netfs : gmap (string * string) NetworkFilesystem;
  services : gmap (string * string) Service;
  faults : Request -> option error;
  wallclock : nat -> Time;
  ticks : nat;
  log : list (Request * option error);
}.

(** Computations that read and change the world. *)
Definition M (A : Type) : Type := World -> A * World.

Definition ret {A} (a : A) : M A := fun w => (a, w).

Definition bind {A B} (m : M A) (k : A -> M B) : M B :=
  fun w => let '(a, w') := m w in k a w'.

Definition failed {A} (r : result A) : option error :=
  match r with Ok _ => None | Err e => Some e end.

Definition record_request (q : Request) (e : option error) (w : World) : World :=
  mkWorld (netfs w) (services w) (faults w) (wallclock w) (ticks w) (log w ++ [(q, e)]).

(** The answer of the store to [NetworkFilsystems.Get ns name]. *)
Definition lookupFS (w : World) (ns name : string) : result NetworkFilesystem :=
  match faults w (GetNetworkFilesystem ns name) with
  | Some e => Err e
  | None =>
      match netfs w !! (ns, name) with
      | Some o => Ok o
      | None => Err (NotFound "networkfilesystems" ns name)
      end
  end.

(** The answer of the store to [serviceClient.Get ns name]. *)
Definition lookupService (w : World) (ns name : string) : result Service :=
  match faults w (GetService ns name) with
  | Some e => Err e
  | None =>
      match services w !! (ns, name) with
      | Some o => Ok o
      | None => Err (NotFound "services" ns name)
      end
  end.

(** The answer of the store to [NetworkFilsystems.UpdateStatus obj]: the
    stored object of that namespace and name with its status replaced. *)
Definition submitStatus (w : World) (obj : NetworkFilesystem) : result NetworkFilesystem :=
  let key := (Namespace (fs_ObjectMeta obj), Name (fs_ObjectMeta obj)) in
  match faults w (UpdateStatus obj) with
  | Some e => Err e
  | None =>
      match netfs w !! key with
      | Some old => Ok (mkNetworkFilesystem (fs_ObjectMeta old) (Spec old) (Status obj))
      | None => Err (NotFound "networkfilesystems" (fst key) (snd key))
      end
  end.

Definition NetworkFilsystems_Get (ns name : string) : M (result NetworkFilesystem) :=
  fun w =>
    let r := lookupFS w ns name in
    (r, record_request (GetNetworkFilesystem ns name) (failed r) w).

Definition serviceClient_Get (ns name : string) : M (result Service) :=
  fun w =>
    let r := lookupService w ns name in
    (r, record_request (GetService ns name) (failed r) w).

Definition NetworkFilsystems_UpdateStatus (obj : NetworkFilesystem)
  : M (result NetworkFilesystem) :=
  fun w =>
    let r := submitStatus w obj in
    let w' := record_request (UpdateStatus obj) (failed r) w in
    match r with
    | Ok new =>
        (r, mkWorld
              (<[(Namespace (fs_ObjectMeta obj), Name (fs_ObjectMeta obj)) := new]> (netfs w'))
              (services w') (faults w') (wallclock w') (ticks w') (log w'))
    | Err _ => (r, w')
    end.

(** [metav1.Now()]: every read consumes one instant of the clock. *)
Definition Now : M Time :=
  fun w =>
    (wallclock w (ticks w),
     mkWorld (netfs w) (services w) (faults w) (wallclock w) (S (ticks w)) (log w)).

End cluster.
Export cluster.

Declare Scope go_scope.
Delimit Scope go_scope with go.
Notation "x <- m ;; k" := (bind m (fun x => k))
  (at level 100, m at next level, right associativity) : go_scope.

(** ** pkg/controller/endpoint *)
Module endpoint.

Open Scope go_scope.

(** [type Controller struct]: the configuration fields; the caches and
    clients of the Go struct are the stores of the [World]. *)
Record Controller := mkController {
  namespace : string;
  nodeName : string;
}.

(** What the handler returns: an endpoint pointer and an error. *)
Definition Returned : Type := option Endpoints * option error.

(** The condition built at lines 93-99. *)
Definition notReadyCond (now : Time) : NetworkFSCondition :=
  {| cond_Type := ConditionTypeNotReady;
     cond_Status := ConditionTrue;
     cond_LastTransitionTime := now;
     cond_Reason := "Endpoint is not ready";
     cond_Message := "Endpoint did not contain the corresponding address" |}.

(** [changedMsg] as lines 103-106 compute it.  [ip] is the new address and
    [previous] the value of [networkFSCpy.Status.Endpoint] at that point. *)
Definition changedMsg (ip previous : string) : string :=
  let changedMsg := "Endpoint address is initialized with " ++ ip in
  if bool_decide (changedMsg <> "")
  then "Endpoint address is changed, previous address is " ++ previous
  else changedMsg.

(** The condition built at lines 107-113. *)
Definition endpointChangedCond (now : Time) (msg : string) : NetworkFSCondition :=
  {| cond_Type := ConditionTypeEndpointChanged;
     cond_Status := ConditionTrue;
     cond_LastTransitionTime := now;
     cond_Reason := "Endpoint is changed";
     cond_Message := msg |}.

(** The condition built at lines 120-126. *)
Definition readyCond (now : Time) : NetworkFSCondition :=
  {| cond_Type := ConditionTypeReady;
     cond_Status := ConditionTrue;
     cond_LastTransitionTime := now;
     cond_Reason := "Endpoint is ready";
     cond_Message := "Endpoint contains the corresponding address" |}.

(** [endpoint.Subsets[0].Addresses[0]], when
    [len(endpoint.Subsets) == 0 || len(endpoint.Subsets[0].Addresses) == 0]
    is false. *)
Definition firstAddress (endpoint : Endpoints) : option EndpointAddress :=
  match Subsets endpoint with
  | [] => None
  | subset0 :: _ =>
      match Addresses subset0 with
      | [] => None
      | address0 :: _ => Some address0
      end
  end.

(** Lines 87-128 of [OnEndpointChange]: the prospective resource
    [networkFSCpy], computed on a copy of the fetched [networkFS]. *)
Definition prospective (endpoint : Endpoints) (networkFS : NetworkFilesystem)
  : M NetworkFilesystem :=
  let networkFSCpy := networkFS in
  match firstAddress endpoint with
  | None =>
      let networkFSCpy := set_Endpoint "" networkFSCpy in
      let networkFSCpy := set_Status EndpointStatusNotReady networkFSCpy in
      let networkFSCpy := set_Type NetworkFSTypeNFS networkFSCpy in
      let networkFSCpy := set_State NetworkFSStateEnabling networkFSCpy in
      now <- Now ;;
      let conds := notReadyCond now in
      ret (set_NetworkFSConds
             (UpdateNetworkFSConds (NetworkFSConds (Status networkFSCpy)) conds)
             networkFSCpy)
  | Some address0 =>
      networkFSCpy <-
        (if bool_decide (Endpoint (Status networkFSCpy) <> IP address0) then
           let changedMsg := changedMsg (IP address0) (Endpoint (Status networkFSCpy)) in
           now <- Now ;;
           let conds := endpointChangedCond now changedMsg in
           ret (set_NetworkFSConds
                  (UpdateNetworkFSConds (NetworkFSConds (Status networkFSCpy)) conds)
                  networkFSCpy)
         else ret networkFSCpy) ;;
      let networkFSCpy := set_Endpoint (IP address0) networkFSCpy in
      let networkFSCpy := set_Status EndpointStatusReady networkFSCpy in
      let networkFSCpy := set_Type NetworkFSTypeNFS networkFSCpy in
      let networkFSCpy := set_State NetworkFSStateEnabling networkFSCpy in
      now <- Now ;;
      let conds := readyCond now in
      ret (set_NetworkFSConds
             (UpdateNetworkFSConds (NetworkFSConds (Status networkFSCpy)) conds)
             networkFSCpy)
  end.

(** [OnEndpointChange], the method of [Controller] that takes a key and an
    endpoint pointer and returns an endpoint pointer and an error.  A nil
    pointer is [None]; logging is left out.  [reflect.DeepEqual] at line 130
    is equality of the two records: a nil and an empty slice are the same
    list here, and the history of [networkFSCpy] is never empty. *)
Definition OnEndpointChange (c : Controller) (_key : string) (endpoint : option Endpoints)
  : M Returned :=
  match endpoint with
  | None => ret (None, None)
  | Some endpoint =>
      if bool_decide (DeletionTimestamp (ep_ObjectMeta endpoint) <> None) then
        ret (None, None)
      else if negb (String.prefix "pvc-" (Name (ep_ObjectMeta endpoint))) then
        ret (None, None)
      else
        got <- NetworkFilsystems_Get (namespace c) (Name (ep_ObjectMeta endpoint)) ;;
        match got with
        | Err err => ret (None, Some err)
        | Ok networkFS =>
            if bool_decide (DesiredState (Spec networkFS) <> NetworkFSStateEnabled) then
              ret (None, None)
            else
              got <- serviceClient_Get LHNameSpace (Name (ep_ObjectMeta endpoint)) ;;
              match got with
              | Err err => ret (None, Some err)
              | Ok service =>
                  if bool_decide (ClusterIP (svc_Spec service) <> ClusterIPNone) then
                    ret (None, None)
                  else
                    networkFSCpy <- prospective endpoint networkFS ;;
                    if negb (bool_decide (networkFS = networkFSCpy)) then
                      updated <- NetworkFilsystems_UpdateStatus networkFSCpy ;;
                      match updated with
                      | Err err => ret (None, Some err)
                      | Ok _ => ret (None, None)
                      end
                    else ret (None, None)
              end
        end
  end.

End endpoint.
Export endpoint.

(** ** What one invocation does to the world *)

(** The requests sent between the worlds [w] and [w'], oldest first. *)
Definition issued (w w' : World) : list (Request * option error) :=
  drop (length (log w)) (log w').

(** The object of a status update, for an [UpdateStatus] request. *)
Definition writtenObject (ev : Request * option error) : option NetworkFilesystem :=
  match ev.1 with
  | UpdateStatus obj => Some obj
  | _ => None
  end.

(** The objects submitted through [UpdateStatus] between [w] and [w']. *)
Definition statusWrites (w w' : World) : list NetworkFilesystem :=
  omap writtenObject (issued w w').

(** The errors the requests sent between [w] and [w'] came back with. *)
Definition failures (w w' : World) : list error :=
  omap snd (issued w w').

(** The resource [networkFSCpy] an invocation computes in world [w] from the
    endpoint and the fetched [networkFS]. *)
Definition computed (endpoint : Endpoints) (networkFS : NetworkFilesystem) (w : World)
  : NetworkFilesystem :=
  (prospective endpoint networkFS w).1.

(** The clock read whose instant stamps the Ready or NotReady condition of
    the block: the second read when an EndpointChanged condition was stamped
    first, the first one otherwise. *)
Definition stampingRead (endpoint : Endpoints) (networkFS : NetworkFilesystem) (w : World)
  : nat :=
  match firstAddress endpoint with
  | Some address0 =>
      if bool_decide (Endpoint (Status networkFS) <> IP address0) then S (ticks w)
      else ticks w
  | None => ticks w
  end.

(** The invocation on [endpoint] in world [w] gets past every guard of lines
    53-85 and has fetched [networkFS]. *)
Definition passesGuards (c : Controller) (endpoint : Endpoints) (w : World)
    (networkFS : NetworkFilesystem) : Prop :=
  DeletionTimestamp (ep_ObjectMeta endpoint) = None /\
  String.prefix "pvc-" (Name (ep_ObjectMeta endpoint)) = true /\
  lookupFS w (namespace c) (Name (ep_ObjectMeta endpoint)) = Ok networkFS /\
  DesiredState (Spec networkFS) = NetworkFSStateEnabled /\
  exists service,
    lookupService w LHNameSpace (Name (ep_ObjectMeta endpoint)) = Ok service /\
    ClusterIP (svc_Spec service) = ClusterIPNone.

(** One of the guards of lines 53-85 stops the invocation on [endpoint]. *)
Definition guardNoop (c : Controller) (endpoint : option Endpoints) (w : World) : Prop :=
  match endpoint with
  | None => True
  | Some endpoint =>
      let name := Name (ep_ObjectMeta endpoint) in
      DeletionTimestamp (ep_ObjectMeta endpoint) <> None \/
      String.prefix "pvc-" name = false \/
      exists networkFS, lookupFS w (namespace c) name = Ok networkFS /\
        (DesiredState (Spec networkFS) <> NetworkFSStateEnabled \/
         exists service, lookupService w LHNameSpace name = Ok service /\
           ClusterIP (svc_Spec service) <> ClusterIPNone)
  end.

(** The ways an invocation can end, each with what it returns and the world
    it leaves: stopped before any request (lines 53-61), stopped by a failed
    read or by a guard on what was read (lines 64-85), or past the guards
    (lines 87-137). *)
Inductive Path (c : Controller) : option Endpoints -> World -> Returned * World -> Prop :=
| path_ignored endpoint w :
    (endpoint = None \/
     exists e, endpoint = Some e /\
       (DeletionTimestamp (ep_ObjectMeta e) <> None \/
        String.prefix "pvc-" (Name (ep_ObjectMeta e)) = false)) ->
    Path c endpoint w ((None, None), w)
| path_get_failed endpoint w err :
    DeletionTimestamp (ep_ObjectMeta endpoint) = None ->
    String.prefix "pvc-" (Name (ep_ObjectMeta endpoint)) = true ->
    lookupFS w (namespace c) (Name (ep_ObjectMeta endpoint)) = Err err ->
    Path c (Some endpoint) w
      ((None, Some err),
       record_request
         (GetNetworkFilesystem (namespace c) (Name (ep_ObjectMeta endpoint))) (Some err) w)
| path_not_enabled endpoint w networkFS :
    DeletionTimestamp (ep_ObjectMeta endpoint) = None ->
    String.prefix "pvc-" (Name (ep_ObjectMeta endpoint)) = true ->
    lookupFS w (namespace c) (Name (ep_ObjectMeta endpoint)) = Ok networkFS ->
    DesiredState (Spec networkFS) <> NetworkFSStateEnabled ->
    Path c (Some endpoint) w
      ((None, None),
       record_request
         (GetNetworkFilesystem (namespace c) (Name (ep_ObjectMeta endpoint))) None w)
| path_service_failed endpoint w networkFS err :
    DeletionTimestamp (ep_ObjectMeta endpoint) = None ->
    String.prefix "pvc-" (Name (ep_ObjectMeta endpoint)) = true ->
    lookupFS w (namespace c) (Name (ep_ObjectMeta endpoint)) = Ok networkFS ->
    DesiredState (Spec networkFS) = NetworkFSStateEnabled ->
    lookupService w LHNameSpace (Name (ep_ObjectMeta endpoint)) = Err err ->
    Path c (Some endpoint) w
      ((None, Some err),
       record_request (GetService LHNameSpace (Name (ep_ObjectMeta endpoint))) (Some err)
         (record_request
            (GetNetworkFilesystem (namespace c) (Name (ep_ObjectMeta endpoint))) None w))
| path_not_headless endpoint w networkFS service :
    DeletionTimestamp (ep_ObjectMeta endpoint) = None ->
    String.prefix "pvc-" (Name (ep_ObjectMeta endpoint)) = true ->
    lookupFS w (namespace c) (Name (ep_ObjectMeta endpoint)) = Ok networkFS ->
    DesiredState (Spec networkFS) = NetworkFSStateEnabled ->
    lookupService w LHNameSpace (Name (ep_ObjectMeta endpoint)) = Ok service ->
    ClusterIP (svc_Spec service) <> ClusterIPNone ->
    Path c (Some endpoint) w
      ((None, None),
       record_request (GetService LHNameSpace (Name (ep_ObjectMeta endpoint))) None
         (record_request
            (GetNetworkFilesystem (namespace c) (Name (ep_ObjectMeta endpoint))) None w))
| path_reconciled endpoint w networkFS out :
    passesGuards c endpoint w networkFS ->
    out.1 = (None, if decide (networkFS = computed endpoint networkFS w) then None
                   else failed (submitStatus w (computed endpoint networkFS w))) ->
    issued w out.2 =
      ([(GetNetworkFilesystem (namespace c) (Name (ep_ObjectMeta endpoint)), None);
        (GetService LHNameSpace (Name (ep_ObjectMeta endpoint)), None)] ++
       if decide (networkFS = computed endpoint networkFS w) then []
       else [(UpdateStatus (computed endpoint networkFS w),
              failed (submitStatus w (computed endpoint networkFS w)))])%list ->
    Path c (Some endpoint) w out.

(** The status fields lines 89-92 and 116-119 assign, as a function of the
    first address. *)
Definition derivedEndpoint (endpoint : Endpoints) : string :=
  match firstAddress endpoint with
  | Some address0 => IP address0
  | None => ""
  end.

Definition derivedStatus (endpoint : Endpoints) : EndpointStatus :=
  match firstAddress endpoint with
  | Some _ => EndpointStatusReady
  | None => EndpointStatusNotReady
  end.

(** The data-model invariant of a condition history: at most one record per
    Type. *)
Definition onePerType (conds : list NetworkFSCondition) : Prop :=
  NoDup (cond_Type <$> conds).

(** The records of type [t] in a history. *)
Definition ofType (t : ConditionType) (conds : list NetworkFSCondition)
  : list NetworkFSCondition :=
  filter (fun c => cond_Type c = t) conds.

(** ** A small cluster to run the handler on *)
Module scenario.

Definition ctl : Controller := mkController "harvester-system" "node-1".

Definition meta (ns name : string) : ObjectMeta := mkObjectMeta name ns None.

Definition subset (ips : list string) : EndpointSubset :=
  mkEndpointSubset ((fun ip => mkEndpointAddress ip "") <$> ips) [].

Definition endpointOf (name : string) (subsets : list (list string)) : Endpoints :=
  mkEndpoints (meta LHNameSpace name) (subset <$> subsets).

Definition filesystem (desired : NetworkFSState) (st : NetworkFSStatus) : NetworkFilesystem :=
  mkNetworkFilesystem (meta "harvester-system" "pvc-abc") (mkSpec desired) st.

Definition emptyStatus : NetworkFSStatus := mkStatus [] "" "" "" "".

Definition headless : Service :=
  mkService (meta LHNameSpace "pvc-abc") (mkServiceSpec ClusterIPNone).

Definition routed : Service :=
  mkService (meta LHNameSpace "pvc-abc") (mkServiceSpec "10.43.0.7").

Definition noFaults : Request -> option error := fun _ => None.

(** A clock that advances by one at every read, starting at 1000. *)
Definition clock : nat -> Time := fun i => (1000 + Z.of_nat i)%Z.

Definition world (fs : NetworkFilesystem) (svc : Service)
    (plan : Request -> option error) : World :=
  mkWorld {[ ("harvester-system", "pvc-abc") := fs ]}
          {[ (LHNameSpace, "pvc-abc") := svc ]}
          plan clock 0 [].

(** Runs the handler; what it returned and the requests it sent. *)
Definition run (ep : option Endpoints) (w : World)
  : Returned * list (Request * option error) :=
  let '(r, w') := OnEndpointChange ctl "" ep w in (r, issued w w').

End scenario.

(** ** The condition history *)
Section history.

Implicit Types (conds : list NetworkFSCondition) (c : NetworkFSCondition).
Implicit Types (t : ConditionType).


(** Writing a record leaves the records of every other type as they were. *)
Lemma UpdateNetworkFSConds_other conds c t :
  t <> cond_Type c ->
  ofType t (UpdateNetworkFSConds conds c) = ofType t conds.
Proof.
  unfold ofType. intros Hne. induction conds as [|d conds IH]; simpl.
  - rewrite filter_cons_False by congruence. done.
  - destruct (decide (cond_Type d = cond_Type c)) as [Heq|Hd].
    + rewrite !filter_cons_False by congruence. done.
    + rewrite !filter_cons, IH. done.
Qed.


Lemma UpdateNetworkFSConds_elem conds c : c ∈ UpdateNetworkFSConds conds c.
Proof.
  induction conds as [|d conds IH]; simpl; [set_solver|].
  destruct (decide (cond_Type d = cond_Type c)); set_solver.
Qed.

(** Writing the same record twice is writing it once. *)
Lemma UpdateNetworkFSConds_idem conds c :
  UpdateNetworkFSConds (UpdateNetworkFSConds conds c) c = UpdateNetworkFSConds conds c.
Proof.
  induction conds as [|d conds IH]; simpl.
  - by rewrite decide_True.
  - destruct (decide (cond_Type d = cond_Type c)) as [Heq|Hne]; simpl.
    + by rewrite decide_True.
    + rewrite decide_False by done. by rewrite IH.
Qed.

(** A write that leaves the history as it was wrote a record it held. *)
Lemma UpdateNetworkFSConds_fixed conds c :
  UpdateNetworkFSConds conds c = conds -> c ∈ conds.
Proof. intros Heq. rewrite <- Heq. apply UpdateNetworkFSConds_elem. Qed.

(** Writing a record the history already holds, in a history with one record
    per type, changes nothing. *)
Lemma UpdateNetworkFSConds_held conds c :
  onePerType conds -> c ∈ conds -> UpdateNetworkFSConds conds c = conds.
Proof.
  unfold onePerType. induction conds as [|d conds IH]; intros Hnd Hin; simpl.
  - by apply elem_of_nil in Hin.
  - rewrite fmap_cons in Hnd. apply NoDup_cons in Hnd as [Hd Hnd].
    apply elem_of_cons in Hin as [->|Hin].
    + by rewrite decide_True.
    + rewrite decide_False; [by rewrite IH|].
      intros Heq. apply Hd. rewrite Heq. by apply list_elem_of_fmap_2.
Qed.

Lemma UpdateNetworkFSConds_types conds c :
  cond_Type <$> UpdateNetworkFSConds conds c =
  if decide (cond_Type c ∈ cond_Type <$> conds) then cond_Type <$> conds
  else ((cond_Type <$> conds) ++ [cond_Type c])%list.
Proof.
  induction conds as [|d conds IH].
  - destruct (decide _) as [Hin|_]; [|done]. by apply elem_of_nil in Hin.
  - cbn [UpdateNetworkFSConds]. rewrite (fmap_cons cond_Type d conds).
    destruct (decide (cond_Type d = cond_Type c)) as [Heq|Hne].
    + rewrite decide_True by (rewrite Heq; apply list_elem_of_here).
      by rewrite !fmap_cons, Heq.
    + rewrite fmap_cons, IH.
      destruct (decide (cond_Type c ∈ cond_Type <$> conds)) as [Hin|Hnin].
      * rewrite decide_True; [done|]. by apply list_elem_of_further.
      * rewrite decide_False; [done|].
        rewrite not_elem_of_cons. split; [congruence|done].
Qed.

(** The helper keeps the invariant of the history. *)
Lemma UpdateNetworkFSConds_onePerType conds c :
  onePerType conds -> onePerType (UpdateNetworkFSConds conds c).
Proof.
  unfold onePerType. intros Hnd. rewrite UpdateNetworkFSConds_types.
  destruct (decide (cond_Type c ∈ cond_Type <$> conds)) as [Hin|Hnin]; [done|].
  apply NoDup_app. split; [done|]. split.
  - intros t Ht Hc. apply list_elem_of_singleton in Hc. by subst.
  - apply NoDup_singleton.
Qed.

End history.

(** ** The decision block and the handler, path by path *)
Section handler.

Variable c : Controller.
Variable key : string.
Implicit Types (endpoint : Endpoints) (networkFS : NetworkFilesystem) (w : World).

(** The block reads the clock and nothing else. *)
Lemma prospective_frame endpoint networkFS w :
  let w' := (prospective endpoint networkFS w).2 in
  netfs w' = netfs w /\ services w' = services w /\ faults w' = faults w /\
  wallclock w' = wallclock w /\ log w' = log w.
Proof.
  unfold prospective, bind, ret, Now.
  destruct (firstAddress endpoint) as [a|]; [|done].
  case_bool_decide; done.
Qed.

(** What the block computes does not depend on the requests sent before. *)
Lemma computed_record_request endpoint networkFS q e w :
  computed endpoint networkFS (record_request q e w) = computed endpoint networkFS w.
Proof.
  unfold computed, prospective, bind, ret, Now, record_request.
  destruct (firstAddress endpoint) as [a|]; [|done].
  case_bool_decide; done.
Qed.

Lemma submitStatus_frame w w' obj :
  netfs w' = netfs w -> faults w' = faults w ->
  submitStatus w' obj = submitStatus w obj.
Proof. unfold submitStatus. by intros -> ->. Qed.

Lemma issued_app w w' evs : log w' = (log w ++ evs)%list -> issued w w' = evs.
Proof. unfold issued. intros ->. by rewrite drop_app_length. Qed.

Lemma issued_refl w : issued w w = [].
Proof. unfold issued. by rewrite drop_all. Qed.

(** The handler's paths that end at a guard or at a failed read. *)
Lemma OnEndpointChange_absent w :
  OnEndpointChange c key None w = ((None, None), w).
Proof. done. Qed.

Lemma OnEndpointChange_deleting endpoint w :
  DeletionTimestamp (ep_ObjectMeta endpoint) <> None ->
  OnEndpointChange c key (Some endpoint) w = ((None, None), w).
Proof. intros Hdel. unfold OnEndpointChange. by rewrite bool_decide_true. Qed.

Lemma OnEndpointChange_unrelated endpoint w :
  String.prefix "pvc-" (Name (ep_ObjectMeta endpoint)) = false ->
  OnEndpointChange c key (Some endpoint) w = ((None, None), w).
Proof.
  intros Hpre. unfold OnEndpointChange. rewrite Hpre. by case_bool_decide.
Qed.

Lemma OnEndpointChange_get_failed endpoint w err :
  DeletionTimestamp (ep_ObjectMeta endpoint) = None ->
  String.prefix "pvc-" (Name (ep_ObjectMeta endpoint)) = true ->
  lookupFS w (namespace c) (Name (ep_ObjectMeta endpoint)) = Err err ->
  OnEndpointChange c key (Some endpoint) w =
    ((None, Some err),
     record_request
       (GetNetworkFilesystem (namespace c) (Name (ep_ObjectMeta endpoint))) (Some err) w).
Proof.
  intros Hdel Hpre Hfs.
  unfold OnEndpointChange, bind, ret, NetworkFilsystems_Get.
  rewrite bool_decide_false by (rewrite Hdel; tauto).
  rewrite Hpre. cbn [negb]. by rewrite Hfs.
Qed.

Lemma OnEndpointChange_not_enabled endpoint w networkFS :
  DeletionTimestamp (ep_ObjectMeta endpoint) = None ->
  String.prefix "pvc-" (Name (ep_ObjectMeta endpoint)) = true ->
  lookupFS w (namespace c) (Name (ep_ObjectMeta endpoint)) = Ok networkFS ->
  DesiredState (Spec networkFS) <> NetworkFSStateEnabled ->
  OnEndpointChange c key (Some endpoint) w =
    ((None, None),
     record_request
       (GetNetworkFilesystem (namespace c) (Name (ep_ObjectMeta endpoint))) None w).
Proof.
  intros Hdel Hpre Hfs Hen.
  unfold OnEndpointChange, bind, ret, NetworkFilsystems_Get.
  rewrite bool_decide_false by (rewrite Hdel; tauto).
  rewrite Hpre. cbn [negb]. rewrite Hfs. by rewrite bool_decide_true.
Qed.

Lemma OnEndpointChange_service_failed endpoint w networkFS err :
  DeletionTimestamp (ep_ObjectMeta endpoint) = None ->
  String.prefix "pvc-" (Name (ep_ObjectMeta endpoint)) = true ->
  lookupFS w (namespace c) (Name (ep_ObjectMeta endpoint)) = Ok networkFS ->
  DesiredState (Spec networkFS) = NetworkFSStateEnabled ->
  lookupService w LHNameSpace (Name (ep_ObjectMeta endpoint)) = Err err ->
  OnEndpointChange c key (Some endpoint) w =
    ((None, Some err),
     record_request (GetService LHNameSpace (Name (ep_ObjectMeta endpoint))) (Some err)
       (record_request
          (GetNetworkFilesystem (namespace c) (Name (ep_ObjectMeta endpoint))) None w)).
Proof.
  intros Hdel Hpre Hfs Hen Hsvc.
  unfold OnEndpointChange, bind, ret, NetworkFilsystems_Get, serviceClient_Get.
  rewrite bool_decide_false by (rewrite Hdel; tauto).
  rewrite Hpre. cbn [negb]. rewrite Hfs.
  rewrite bool_decide_false by (rewrite Hen; tauto).
  replace (lookupService (record_request _ _ w) LHNameSpace _) with (@Err Service err)
    by (rewrite <- Hsvc; reflexivity).
  done.
Qed.

Lemma OnEndpointChange_not_headless endpoint w networkFS service :
  DeletionTimestamp (ep_ObjectMeta endpoint) = None ->
  String.prefix "pvc-" (Name (ep_ObjectMeta endpoint)) = true ->
  lookupFS w (namespace c) (Name (ep_ObjectMeta endpoint)) = Ok networkFS ->
  DesiredState (Spec networkFS) = NetworkFSStateEnabled ->
  lookupService w LHNameSpace (Name (ep_ObjectMeta endpoint)) = Ok service ->
  ClusterIP (svc_Spec service) <> ClusterIPNone ->
  OnEndpointChange c key (Some endpoint) w =
    ((None, None),
     record_request (GetService LHNameSpace (Name (ep_ObjectMeta endpoint))) None
       (record_request
          (GetNetworkFilesystem (namespace c) (Name (ep_ObjectMeta endpoint))) None w)).
Proof.
  intros Hdel Hpre Hfs Hen Hsvc Hip.
  unfold OnEndpointChange, bind, ret, NetworkFilsystems_Get, serviceClient_Get.
  rewrite bool_decide_false by (rewrite Hdel; tauto).
  rewrite Hpre. cbn [negb]. rewrite Hfs.
  rewrite bool_decide_false by (rewrite Hen; tauto).
  replace (lookupService (record_request _ _ w) LHNameSpace _) with (Ok service)
    by (rewrite <- Hsvc; reflexivity).
  by rewrite bool_decide_true.
Qed.

(** The requests recorded on top of [w]. *)
Lemma issued_record1 w q e : issued w (record_request q e w) = [(q, e)].
Proof. by apply issued_app. Qed.

Lemma issued_record2 w q e q' e' :
  issued w (record_request q' e' (record_request q e w)) = [(q, e); (q', e')].
Proof. apply issued_app. unfold record_request. cbn [log]. by rewrite <- app_assoc. Qed.

(** Past the guards: the two reads, then the write if and only if the
    computed resource differs from the fetched one. *)
Lemma OnEndpointChange_reconciles endpoint networkFS w :
  passesGuards c endpoint w networkFS ->
  let name := Name (ep_ObjectMeta endpoint) in
  let networkFSCpy := computed endpoint networkFS w in
  let out := OnEndpointChange c key (Some endpoint) w in
  out.1 = (None, if decide (networkFS = networkFSCpy) then None
                 else failed (submitStatus w networkFSCpy)) /\
  issued w out.2 =
    ([(GetNetworkFilesystem (namespace c) name, None);
      (GetService LHNameSpace name, None)] ++
     if decide (networkFS = networkFSCpy) then []
     else [(UpdateStatus networkFSCpy, failed (submitStatus w networkFSCpy))])%list.
Proof.
  intros (Hdel & Hpre & Hfs & Hen & service & Hsvc & Hip). cbv zeta.
  unfold OnEndpointChange, bind, ret, NetworkFilsystems_Get, serviceClient_Get.
  rewrite bool_decide_false by (rewrite Hdel; tauto).
  rewrite Hpre. cbn [negb]. rewrite Hfs.
  rewrite bool_decide_false by (rewrite Hen; tauto).
  replace (lookupService (record_request _ _ w) LHNameSpace _) with (Ok service)
    by (rewrite <- Hsvc; reflexivity).
  rewrite bool_decide_false by (rewrite Hip; tauto).
  cbn [failed].
  set (w2 := record_request _ _ (record_request _ _ w)).
  pose proof (prospective_frame endpoint networkFS w2) as Hframe.
  assert (computed endpoint networkFS w2 = computed endpoint networkFS w) as Hcpy
    by (unfold w2; by rewrite !computed_record_request).
  unfold computed in Hcpy at 1. cbv zeta in Hframe.
  destruct (prospective endpoint networkFS w2) as [cpy w3]. cbn [fst snd] in *.
  destruct Hframe as (Hn & _ & Hf & _ & Hl). rewrite <- Hcpy.
  assert (log w3 = (log w ++ [(GetNetworkFilesystem (namespace c) (Name (ep_ObjectMeta endpoint)), None);
                              (GetService LHNameSpace (Name (ep_ObjectMeta endpoint)), None)])%list) as Hlog.
  { rewrite Hl. unfold w2, record_request. cbn [log]. by rewrite <- app_assoc. }
  destruct (decide (networkFS = cpy)) as [Heq|Hne].
  - rewrite bool_decide_true by done. cbn [negb fst snd]. split; [done|].
    rewrite app_nil_r. by apply issued_app.
  - rewrite bool_decide_false by done. cbn [negb].
    unfold NetworkFilsystems_UpdateStatus.
    assert (submitStatus w3 cpy = submitStatus w cpy) as Hsub.
    { apply submitStatus_frame; [rewrite Hn|rewrite Hf]; done. }
    rewrite Hsub.
    destruct (submitStatus w cpy) as [new|err]; cbn [failed fst snd]; (split; [done|]);
      apply issued_app; unfold record_request; cbn [log]; rewrite Hlog;
      by rewrite <- app_assoc.
Qed.

End handler.

(** ** The computed resource, branch by branch *)
Section decision.

Implicit Types (endpoint : Endpoints) (networkFS : NetworkFilesystem) (w : World).

(** [firstAddress] in the words of line 88. *)
Lemma firstAddress_None endpoint :
  firstAddress endpoint = None <->
  length (Subsets endpoint) = 0 \/
  exists subset0, Subsets endpoint !! 0 = Some subset0 /\ length (Addresses subset0) = 0.
Proof.
  unfold firstAddress. destruct (Subsets endpoint) as [|s rest]; cbn.
  - split; auto.
  - destruct (Addresses s) as [|a more] eqn:Ha; split; try done.
    + intros _. right. exists s. by rewrite Ha.
    + intros [|(s' & [= <-] & Hlen)]; [done|]. by rewrite Ha in Hlen.
Qed.


(** No live address: lines 89-100. *)
Lemma computed_not_ready endpoint networkFS w :
  firstAddress endpoint = None ->
  computed endpoint networkFS w =
    mkNetworkFilesystem (fs_ObjectMeta networkFS) (Spec networkFS)
      (mkStatus
         (UpdateNetworkFSConds (NetworkFSConds (Status networkFS))
            (notReadyCond (wallclock w (ticks w))))
         "" EndpointStatusNotReady NetworkFSTypeNFS NetworkFSStateEnabling).
Proof. unfold computed, prospective. by intros ->. Qed.

(** A live address equal to the stored one: lines 116-127 only. *)
Lemma computed_ready_same endpoint networkFS w address0 :
  firstAddress endpoint = Some address0 ->
  Endpoint (Status networkFS) = IP address0 ->
  computed endpoint networkFS w =
    mkNetworkFilesystem (fs_ObjectMeta networkFS) (Spec networkFS)
      (mkStatus
         (UpdateNetworkFSConds (NetworkFSConds (Status networkFS))
            (readyCond (wallclock w (ticks w))))
         (IP address0) EndpointStatusReady NetworkFSTypeNFS NetworkFSStateEnabling).
Proof.
  unfold computed, prospective. intros -> Heq.
  by rewrite bool_decide_false by (rewrite Heq; tauto).
Qed.

(** A live address that differs from the stored one: lines 103-127. *)
Lemma computed_ready_changed endpoint networkFS w address0 :
  firstAddress endpoint = Some address0 ->
  Endpoint (Status networkFS) <> IP address0 ->
  computed endpoint networkFS w =
    mkNetworkFilesystem (fs_ObjectMeta networkFS) (Spec networkFS)
      (mkStatus
         (UpdateNetworkFSConds
            (UpdateNetworkFSConds (NetworkFSConds (Status networkFS))
               (endpointChangedCond (wallclock w (ticks w))
                  (changedMsg (IP address0) (Endpoint (Status networkFS)))))
            (readyCond (wallclock w (S (ticks w)))))
         (IP address0) EndpointStatusReady NetworkFSTypeNFS NetworkFSStateEnabling).
Proof.
  unfold computed, prospective. intros -> Hne.
  by rewrite bool_decide_true by done.
Qed.

(** The message of lines 103-106 is the "changed" one whatever the inputs. *)
Lemma changedMsg_changed ip previous :
  changedMsg ip previous =
  "Endpoint address is changed, previous address is " ++ previous.
Proof. unfold changedMsg. by rewrite bool_decide_true. Qed.

(** Every object an invocation past the guards submits is the computed one. *)
Lemma statusWrites_reconciles c key endpoint networkFS w :
  passesGuards c endpoint w networkFS ->
  statusWrites w (OnEndpointChange c key (Some endpoint) w).2 =
    if decide (networkFS = computed endpoint networkFS w) then []
    else [computed endpoint networkFS w].
Proof.
  intros Hg. destruct (OnEndpointChange_reconciles c key _ _ _ Hg) as [_ Hlog].
  cbv zeta in Hlog. unfold statusWrites. rewrite Hlog.
  by destruct (decide _).
Qed.

(** The handler keeps the invariant of the history. *)
Lemma computed_onePerType endpoint networkFS w :
  onePerType (NetworkFSConds (Status networkFS)) ->
  onePerType (NetworkFSConds (Status (computed endpoint networkFS w))).
Proof.
  intros Hinv. destruct (firstAddress endpoint) as [a|] eqn:Hfirst.
  - destruct (decide (Endpoint (Status networkFS) = IP a)) as [Heq|Hne].
    + rewrite (computed_ready_same _ _ _ _ Hfirst Heq). cbn.
      by apply UpdateNetworkFSConds_onePerType.
    + rewrite (computed_ready_changed _ _ _ _ Hfirst Hne). cbn.
      by do 2 apply UpdateNetworkFSConds_onePerType.
  - rewrite (computed_not_ready _ _ _ Hfirst). cbn.
    by apply UpdateNetworkFSConds_onePerType.
Qed.

(** An invocation whose computed resource equals the fetched one found the
    condition of its branch in the fetched history, timestamp included. *)
Lemma unchanged_holds_stamp endpoint networkFS w :
  computed endpoint networkFS w = networkFS ->
  exists i, (i = ticks w \/ i = S (ticks w)) /\
    (readyCond (wallclock w i) ∈ NetworkFSConds (Status networkFS) \/
     notReadyCond (wallclock w i) ∈ NetworkFSConds (Status networkFS)).
Proof.
  intros Heq. destruct (firstAddress endpoint) as [a|] eqn:Hfirst.
  - destruct (decide (Endpoint (Status networkFS) = IP a)) as [Hsame|Hne].
    + rewrite (computed_ready_same _ _ _ _ Hfirst Hsame) in Heq.
      exists (ticks w). split; [by left|]. left.
      rewrite <- Heq. cbn. apply UpdateNetworkFSConds_elem.
    + rewrite (computed_ready_changed _ _ _ _ Hfirst Hne) in Heq.
      exists (S (ticks w)). split; [by right|]. left.
      rewrite <- Heq. cbn. apply UpdateNetworkFSConds_elem.
  - rewrite (computed_not_ready _ _ _ Hfirst) in Heq.
    exists (ticks w). split; [by left|]. right.
    rewrite <- Heq. cbn. apply UpdateNetworkFSConds_elem.
Qed.

(** A second run on the computed resource, reading the very instant that
    stamped the first run's condition, computes the same resource again. *)
Lemma rerun_at_same_instant_is_fixed endpoint networkFS w w' :
  wallclock w' (ticks w') = wallclock w (stampingRead endpoint networkFS w) ->
  computed endpoint (computed endpoint networkFS w) w' = computed endpoint networkFS w.
Proof.
  unfold stampingRead. destruct (firstAddress endpoint) as [a|] eqn:Hfirst.
  - destruct (decide (Endpoint (Status networkFS) = IP a)) as [Heq|Hne].
    + rewrite bool_decide_false by (rewrite Heq; tauto). intros Hclock.
      rewrite (computed_ready_same _ networkFS _ _ Hfirst Heq).
      rewrite (computed_ready_same _ _ w' a Hfirst) by done. cbn.
      by rewrite Hclock, UpdateNetworkFSConds_idem.
    + rewrite bool_decide_true by done. intros Hclock.
      rewrite (computed_ready_changed _ networkFS _ _ Hfirst Hne).
      rewrite (computed_ready_same _ _ w' a Hfirst) by done. cbn.
      by rewrite Hclock, UpdateNetworkFSConds_idem.
  - intros Hclock. rewrite !(computed_not_ready _ _ _ Hfirst). cbn.
    by rewrite Hclock, UpdateNetworkFSConds_idem.
Qed.

End decision.

(** A run that leaves the resource as it was found the stamp of its own
    clock reads in the history; otherwise it writes. *)
Lemma rerun_writes_unless_same_instant c key endpoint networkFS w :
  passesGuards c endpoint w networkFS ->
  (forall i, i = ticks w \/ i = S (ticks w) ->
     (readyCond (wallclock w i) ∉ NetworkFSConds (Status networkFS)) /\
     (notReadyCond (wallclock w i) ∉ NetworkFSConds (Status networkFS))) ->
  statusWrites w (OnEndpointChange c key (Some endpoint) w).2 =
    [computed endpoint networkFS w].
Proof.
  intros Hg Hfresh. rewrite (statusWrites_reconciles _ _ _ _ _ Hg).
  destruct (decide _) as [Heq|]; [|done].
  destruct (unchanged_holds_stamp endpoint networkFS w (eq_sym Heq)) as (i & Hi & Hin).
  destruct (Hfresh i Hi) as [Hr Hn]. by destruct Hin.
Qed.

(** ** The claims *)

(** C1 (the code departs from it): when the stored address is empty and the
    endpoint brings its first address, the claim asks for a message saying
    the address was initialized.  On that input the invocation submits an
    EndpointChanged condition whose message is the "changed" text followed
    by the empty previous address. *)
Theorem C1_first_address_reported_as_change :
  let endpoint := scenario.endpointOf "pvc-abc" [["10.0.0.5"]] in
  let networkFS := scenario.filesystem NetworkFSStateEnabled scenario.emptyStatus in
  let w := scenario.world networkFS scenario.headless scenario.noFaults in
  let networkFSCpy := computed endpoint networkFS w in
  passesGuards scenario.ctl endpoint w networkFS /\
  Endpoint (Status networkFS) = "" /\
  statusWrites w (OnEndpointChange scenario.ctl "" (Some endpoint) w).2 = [networkFSCpy] /\
  cond_Message <$> ofType ConditionTypeEndpointChanged (NetworkFSConds (Status networkFSCpy))
    = ["Endpoint address is changed, previous address is "] /\
  "Endpoint address is initialized with 10.0.0.5"
    ∉ cond_Message <$> NetworkFSConds (Status networkFSCpy).
Proof.
  cbv zeta. split; [|split; [|split; [|split]]].
  - repeat split; try (vm_compute; reflexivity).
    exists scenario.headless. split; vm_compute; reflexivity.
  - reflexivity.
  - vm_compute. reflexivity.
  - vm_compute. reflexivity.
  - vm_compute. intros Hin. repeat (apply elem_of_cons in Hin as [Hin|Hin]; [discriminate Hin|]).
    by apply elem_of_nil in Hin.
Qed.

(** C2 (the code departs from it): the first run on a fresh resource writes
    the status; the second run, on the world the first one left and with
    nothing changed but the clock, computes a resource that differs from the
    stored one in the timestamp of the Ready condition and writes again. *)
Theorem C2_second_run_writes_again :
  let endpoint := scenario.endpointOf "pvc-abc" [["10.0.0.5"]] in
  let networkFS := scenario.filesystem NetworkFSStateEnabled scenario.emptyStatus in
  let w := scenario.world networkFS scenario.headless scenario.noFaults in
  let first := OnEndpointChange scenario.ctl "" (Some endpoint) w in
  let second := OnEndpointChange scenario.ctl "" (Some endpoint) first.2 in
  exists stored again,
    first.1 = (None, None) /\
    statusWrites w first.2 = [stored] /\
    services first.2 = services w /\
    passesGuards scenario.ctl endpoint first.2 stored /\
    second.1 = (None, None) /\
    statusWrites first.2 second.2 = [again] /\
    again = computed endpoint stored first.2 /\
    again <> stored /\
    cond_LastTransitionTime <$> ofType ConditionTypeReady (NetworkFSConds (Status stored))
      = [1001%Z] /\
    cond_LastTransitionTime <$> ofType ConditionTypeReady (NetworkFSConds (Status again))
      = [1002%Z].
Proof.
  cbv zeta.
  set (ep := scenario.endpointOf "pvc-abc" [["10.0.0.5"]]).
  set (w := scenario.world _ _ _).
  set (first := OnEndpointChange scenario.ctl "" (Some ep) w).
  destruct (netfs first.2 !! ("harvester-system", "pvc-abc")) as [stored|] eqn:Hstored;
    [|by vm_compute in Hstored].
  exists stored, (computed ep stored first.2).
  vm_compute in Hstored. injection Hstored as <-.
  repeat split; try (vm_compute; reflexivity).
  - exists scenario.headless. split; vm_compute; reflexivity.
  - vm_compute. discriminate.
Qed.

(** C3: past the guards, a status update is submitted if and only if the
    computed resource differs from the fetched one, and then it carries the
    computed resource; the returned object is nil, and so is the error when
    the write is skipped or succeeds. *)
Theorem C3_write_iff_changed c key endpoint networkFS w :
  passesGuards c endpoint w networkFS ->
  let networkFSCpy := computed endpoint networkFS w in
  let out := OnEndpointChange c key (Some endpoint) w in
  (networkFS <> networkFSCpy <-> statusWrites w out.2 = [networkFSCpy]) /\
  (networkFS = networkFSCpy <-> statusWrites w out.2 = []) /\
  out.1.1 = None /\
  (networkFS = networkFSCpy -> out.1.2 = None) /\
  (forall new, submitStatus w networkFSCpy = Ok new -> out.1.2 = None).
Proof.
  intros Hg. cbv zeta.
  pose proof (statusWrites_reconciles c key _ _ _ Hg) as Hw.
  destruct (OnEndpointChange_reconciles c key _ _ _ Hg) as [Hret _].
  cbv zeta in Hret. rewrite Hw, Hret. cbn [fst snd].
  destruct (decide (networkFS = computed endpoint networkFS w)) as [Heq|Hne].
  - repeat split; try done.
  - repeat split; try done. intros new Hok. by rewrite Hok.
Qed.

Lemma C3_write_iff_changed_witness :
  let endpoint := scenario.endpointOf "pvc-abc" [["10.0.0.9"]] in
  let networkFS :=
    scenario.filesystem NetworkFSStateEnabled
      (mkStatus [] "10.0.0.2" EndpointStatusReady NetworkFSTypeNFS NetworkFSStateEnabling) in
  let w := scenario.world networkFS scenario.headless scenario.noFaults in
  passesGuards scenario.ctl endpoint w networkFS /\
  statusWrites w (OnEndpointChange scenario.ctl "" (Some endpoint) w).2
    = [computed endpoint networkFS w].
Proof.
  cbv zeta.
  assert (passesGuards scenario.ctl (scenario.endpointOf "pvc-abc" [["10.0.0.9"]])
            (scenario.world
               (scenario.filesystem NetworkFSStateEnabled
                  (mkStatus [] "10.0.0.2" EndpointStatusReady NetworkFSTypeNFS
                     NetworkFSStateEnabling))
               scenario.headless scenario.noFaults)
            (scenario.filesystem NetworkFSStateEnabled
               (mkStatus [] "10.0.0.2" EndpointStatusReady NetworkFSTypeNFS
                  NetworkFSStateEnabling))) as Hg.
  { repeat split; try (vm_compute; reflexivity).
    exists scenario.headless. split; vm_compute; reflexivity. }
  split; [exact Hg|].
  apply (C3_write_iff_changed scenario.ctl "" _ _ _ Hg).
  vm_compute. discriminate.
Defined.

(** C6: when the fetched NetworkFilesystem is not Enabled, the invocation
    submits no status update, leaves the stored resources as they are and
    returns no error (no request of it failed), whatever the endpoint
    holds. *)
Theorem C6_not_enabled_no_write c key endpoint networkFS w :
  lookupFS w (namespace c) (Name (ep_ObjectMeta endpoint)) = Ok networkFS ->
  DesiredState (Spec networkFS) <> NetworkFSStateEnabled ->
  let out := OnEndpointChange c key (Some endpoint) w in
  out.1 = (None, None) /\
  statusWrites w out.2 = [] /\
  failures w out.2 = [] /\
  netfs out.2 = netfs w.
Proof.
  intros Hfs Hen. cbv zeta.
  destruct (decide (DeletionTimestamp (ep_ObjectMeta endpoint) = None)) as [Hdel|Hdel].
  - destruct (String.prefix "pvc-" (Name (ep_ObjectMeta endpoint))) eqn:Hpre.
    + rewrite (OnEndpointChange_not_enabled c key _ _ _ Hdel Hpre Hfs Hen).
      unfold statusWrites, failures. cbn [fst snd]. by rewrite issued_record1.
    + rewrite (OnEndpointChange_unrelated c key _ _ Hpre).
      unfold statusWrites, failures. cbn [fst snd]. by rewrite issued_refl.
  - rewrite (OnEndpointChange_deleting c key _ _ Hdel).
    unfold statusWrites, failures. cbn [fst snd]. by rewrite issued_refl.
Qed.

Lemma C6_not_enabled_no_write_witness :
  let endpoint := scenario.endpointOf "pvc-abc" [["10.0.0.5"]] in
  let networkFS := scenario.filesystem "Disabled" scenario.emptyStatus in
  let w := scenario.world networkFS scenario.headless scenario.noFaults in
  let out := OnEndpointChange scenario.ctl "" (Some endpoint) w in
  out.1 = (None, None) /\ statusWrites w out.2 = [] /\ failures w out.2 = [] /\
  netfs out.2 = netfs w.
Proof.
  cbv zeta.
  apply (C6_not_enabled_no_write scenario.ctl ""
           (scenario.endpointOf "pvc-abc" [["10.0.0.5"]])
           (scenario.filesystem "Disabled" scenario.emptyStatus)).
  - vm_compute. reflexivity.
  - vm_compute. discriminate.
Defined.

(** C7: when the NetworkFilesystem was fetched and the fetched Service has a
    cluster IP other than "None", the invocation submits no status update,
    leaves the stored resources as they are and returns no error. *)
Theorem C7_not_headless_no_write c key endpoint networkFS service w :
  lookupFS w (namespace c) (Name (ep_ObjectMeta endpoint)) = Ok networkFS ->
  lookupService w LHNameSpace (Name (ep_ObjectMeta endpoint)) = Ok service ->
  ClusterIP (svc_Spec service) <> ClusterIPNone ->
  let out := OnEndpointChange c key (Some endpoint) w in
  out.1 = (None, None) /\
  statusWrites w out.2 = [] /\
  failures w out.2 = [] /\
  netfs out.2 = netfs w.
Proof.
  intros Hfs Hsvc Hip. cbv zeta.
  destruct (decide (DesiredState (Spec networkFS) = NetworkFSStateEnabled)) as [Hen|Hen].
  - destruct (decide (DeletionTimestamp (ep_ObjectMeta endpoint) = None)) as [Hdel|Hdel].
    + destruct (String.prefix "pvc-" (Name (ep_ObjectMeta endpoint))) eqn:Hpre.
      * rewrite (OnEndpointChange_not_headless c key _ _ _ _ Hdel Hpre Hfs Hen Hsvc Hip).
        unfold statusWrites, failures. cbn [fst snd]. by rewrite issued_record2.
      * rewrite (OnEndpointChange_unrelated c key _ _ Hpre).
        unfold statusWrites, failures. cbn [fst snd]. by rewrite issued_refl.
    + rewrite (OnEndpointChange_deleting c key _ _ Hdel).
      unfold statusWrites, failures. cbn [fst snd]. by rewrite issued_refl.
  - destruct (decide (DeletionTimestamp (ep_ObjectMeta endpoint) = None)) as [Hdel|Hdel].
    + destruct (String.prefix "pvc-" (Name (ep_ObjectMeta endpoint))) eqn:Hpre.
      * rewrite (OnEndpointChange_not_enabled c key _ _ _ Hdel Hpre Hfs Hen).
        unfold statusWrites, failures. cbn [fst snd]. by rewrite issued_record1.
      * rewrite (OnEndpointChange_unrelated c key _ _ Hpre).
        unfold statusWrites, failures. cbn [fst snd]. by rewrite issued_refl.
    + rewrite (OnEndpointChange_deleting c key _ _ Hdel).
      unfold statusWrites, failures. cbn [fst snd]. by rewrite issued_refl.
Qed.

Lemma C7_not_headless_no_write_witness :
  let endpoint := scenario.endpointOf "pvc-abc" [["10.0.0.5"]] in
  let networkFS := scenario.filesystem NetworkFSStateEnabled scenario.emptyStatus in
  let w := scenario.world networkFS scenario.routed scenario.noFaults in
  let out := OnEndpointChange scenario.ctl "" (Some endpoint) w in
  out.1 = (None, None) /\ statusWrites w out.2 = [] /\ failures w out.2 = [] /\
  netfs out.2 = netfs w.
Proof.
  cbv zeta.
  apply (C7_not_headless_no_write scenario.ctl ""
           (scenario.endpointOf "pvc-abc" [["10.0.0.5"]])
           (scenario.filesystem NetworkFSStateEnabled scenario.emptyStatus)
           scenario.routed).
  - vm_compute. reflexivity.
  - vm_compute. reflexivity.
  - vm_compute. discriminate.
Defined.

(** C8: for an endpoint whose name does not start with "pvc-", the
    invocation sends no request at all (it reads neither the
    NetworkFilesystem nor the Service and writes nothing), leaves the world
    as it was and returns nil and no error. *)
Theorem C8_unrelated_name_ignored c key endpoint w :
  String.prefix "pvc-" (Name (ep_ObjectMeta endpoint)) = false ->
  let out := OnEndpointChange c key (Some endpoint) w in
  out.1 = (None, None) /\ issued w out.2 = [] /\ out.2 = w.
Proof.
  intros Hpre. cbv zeta. rewrite (OnEndpointChange_unrelated c key _ _ Hpre).
  cbn [fst snd]. by rewrite issued_refl.
Qed.

Lemma C8_unrelated_name_ignored_witness :
  let endpoint := scenario.endpointOf "kube-dns" [["10.0.0.5"]] in
  let w :=
    scenario.world (scenario.filesystem NetworkFSStateEnabled scenario.emptyStatus)
      scenario.headless scenario.noFaults in
  let out := OnEndpointChange scenario.ctl "" (Some endpoint) w in
  out.1 = (None, None) /\ issued w out.2 = [] /\ out.2 = w.
Proof.
  cbv zeta.
  apply (C8_unrelated_name_ignored scenario.ctl ""
           (scenario.endpointOf "kube-dns" [["10.0.0.5"]])).
  reflexivity.
Defined.






(** C9: the returned error is non-nil exactly when a request of the
    invocation failed, and it is then the error of that request; an
    invocation stopped by a guard (endpoint absent or deleting, name without
    the prefix, resource not Enabled, Service not headless) returns nil and
    no error, and none of its requests failed. *)
Theorem C9_error_iff_request_failed c key endpoint w :
  let out := OnEndpointChange c key endpoint w in
  (forall err, out.1.2 = Some err <-> err ∈ failures w out.2) /\
  (guardNoop c endpoint w -> out.1 = (None, None) /\ failures w out.2 = []).
Proof.
  cbv zeta. destruct endpoint as [endpoint|]; cbn [guardNoop].
  2:{ rewrite OnEndpointChange_absent. unfold failures. cbn [fst snd].
      rewrite issued_refl. cbn. split; [|done].
      intros err. split; [done|by intros ?%elem_of_nil]. }
  destruct (decide (DeletionTimestamp (ep_ObjectMeta endpoint) = None)) as [Hdel|Hdel].
  2:{ rewrite (OnEndpointChange_deleting c key _ _ Hdel). unfold failures.
      cbn [fst snd]. rewrite issued_refl. cbn. split; [|done].
      intros err. split; [done|by intros ?%elem_of_nil]. }
  destruct (String.prefix "pvc-" (Name (ep_ObjectMeta endpoint))) eqn:Hpre.
  2:{ rewrite (OnEndpointChange_unrelated c key _ _ Hpre). unfold failures.
      cbn [fst snd]. rewrite issued_refl. cbn. split; [|done].
      intros err. split; [done|by intros ?%elem_of_nil]. }
  destruct (lookupFS w (namespace c) (Name (ep_ObjectMeta endpoint)))
    as [networkFS|e] eqn:Hfs.
  2:{ rewrite (OnEndpointChange_get_failed c key _ _ _ Hdel Hpre Hfs). unfold failures.
      cbn [fst snd]. rewrite issued_record1. cbn. split.
      - intros err. rewrite list_elem_of_singleton. split; congruence.
      - intros [?|[?|(? & ? & _)]]; done. }
  destruct (decide (DesiredState (Spec networkFS) = NetworkFSStateEnabled)) as [Hen|Hen].
  2:{ rewrite (OnEndpointChange_not_enabled c key _ _ _ Hdel Hpre Hfs Hen).
      unfold failures. cbn [fst snd]. rewrite issued_record1. cbn. split; [|done].
      intros err. split; [done|by intros ?%elem_of_nil]. }
  destruct (lookupService w LHNameSpace (Name (ep_ObjectMeta endpoint)))
    as [service|e] eqn:Hsvc.
  2:{ rewrite (OnEndpointChange_service_failed c key _ _ _ _ Hdel Hpre Hfs Hen Hsvc).
      unfold failures. cbn [fst snd]. rewrite issued_record2. cbn. split.
      - intros err. rewrite list_elem_of_singleton. split; congruence.
      - intros [?|[?|(fs' & [= <-] & [?|(? & ? & _)])]]; done. }
  destruct (decide (ClusterIP (svc_Spec service) = ClusterIPNone)) as [Hip|Hip].
  2:{ rewrite (OnEndpointChange_not_headless c key _ _ _ _ Hdel Hpre Hfs Hen Hsvc Hip).
      unfold failures. cbn [fst snd]. rewrite issued_record2. cbn. split; [|done].
      intros err. split; [done|by intros ?%elem_of_nil]. }
  assert (passesGuards c endpoint w networkFS) as Hg.
  { repeat split; try done. by exists service. }
  destruct (OnEndpointChange_reconciles c key _ _ _ Hg) as [Hret Hlog].
  cbv zeta in Hret, Hlog. unfold failures. rewrite Hret, Hlog. cbn [fst snd]. split.
  - intros err. destruct (decide _); cbn.
    + split; [done|by intros ?%elem_of_nil].
    + destruct (submitStatus w _) as [new|e]; cbn.
      * split; [done|by intros ?%elem_of_nil].
      * rewrite list_elem_of_singleton. split; congruence.
  - intros [?|[?|(fs' & [= <-] & [?|(svc' & [= <-] & ?)])]]; done.
Qed.

Lemma C9_error_iff_request_failed_witness :
  let endpoint := Some (scenario.endpointOf "pvc-abc" [["10.0.0.5"]]) in
  let networkFS := scenario.filesystem NetworkFSStateEnabled scenario.emptyStatus in
  let rejected := Failure "the object has been modified" in
  let plan := fun q => match q with UpdateStatus _ => Some rejected | _ => None end in
  let w := scenario.world networkFS scenario.headless plan in
  let out := OnEndpointChange scenario.ctl "" endpoint w in
  rejected ∈ failures w out.2 /\ out.1.2 = Some rejected.
Proof.
  cbv zeta.
  assert (Failure "the object has been modified" ∈
          failures
            (scenario.world
               (scenario.filesystem NetworkFSStateEnabled scenario.emptyStatus)
               scenario.headless
               (fun q => match q with
                         | UpdateStatus _ => Some (Failure "the object has been modified")
                         | _ => None
                         end))
            (OnEndpointChange scenario.ctl ""
               (Some (scenario.endpointOf "pvc-abc" [["10.0.0.5"]]))
               (scenario.world
                  (scenario.filesystem NetworkFSStateEnabled scenario.emptyStatus)
                  scenario.headless
                  (fun q => match q with
                            | UpdateStatus _ => Some (Failure "the object has been modified")
                            | _ => None
                            end))).2) as Hfailed.
  { vm_compute. apply list_elem_of_here. }
  split; [exact Hfailed|].
  apply (proj1 (C9_error_iff_request_failed scenario.ctl "" _ _)). exact Hfailed.
Defined.

(** C10: past the guards, when the endpoint has no subset or its first
    subset has no address, the history of the computed resource is the
    fetched history after the single write of the NotReady condition, and
    its EndpointChanged records are those of the fetched history, whatever
    the stored address that is being cleared; and whenever the
    EndpointChanged records of the computed resource differ from the fetched
    ones, the first subset has a first address that differs from the stored
    address, and the EndpointChanged condition of that run is in the
    history. *)
Theorem C10_endpoint_changed_only_with_live_address c key endpoint networkFS w :
  passesGuards c endpoint w networkFS ->
  let networkFSCpy := computed endpoint networkFS w in
  let before := NetworkFSConds (Status networkFS) in
  let after := NetworkFSConds (Status networkFSCpy) in
  (forall obj, obj ∈ statusWrites w (OnEndpointChange c key (Some endpoint) w).2 ->
     obj = networkFSCpy) /\
  (length (Subsets endpoint) = 0 \/
   (exists subset0, Subsets endpoint !! 0 = Some subset0 /\ length (Addresses subset0) = 0) ->
   Endpoint (Status networkFSCpy) = "" /\
   after = UpdateNetworkFSConds before (notReadyCond (wallclock w (ticks w))) /\
   ofType ConditionTypeEndpointChanged after = ofType ConditionTypeEndpointChanged before) /\
  (ofType ConditionTypeEndpointChanged after <> ofType ConditionTypeEndpointChanged before ->
   exists subset0 address0,
     Subsets endpoint !! 0 = Some subset0 /\
     Addresses subset0 !! 0 = Some address0 /\
     Endpoint (Status networkFS) <> IP address0 /\
     endpointChangedCond (wallclock w (ticks w))
       (changedMsg (IP address0) (Endpoint (Status networkFS))) ∈ after).
Proof.
  intros Hg. cbv zeta. split; [|split].
  - intros obj. rewrite (statusWrites_reconciles _ _ _ _ _ Hg).
    destruct (decide _); [by intros ?%elem_of_nil|by intros ->%list_elem_of_singleton].
  - intros Hnone%firstAddress_None. rewrite (computed_not_ready _ _ _ Hnone). cbn.
    repeat split. by apply UpdateNetworkFSConds_other.
  - destruct (firstAddress endpoint) as [a|] eqn:Hfirst.
    + destruct (decide (Endpoint (Status networkFS) = IP a)) as [Heq|Hne].
      * rewrite (computed_ready_same _ _ _ _ Hfirst Heq). cbn. intros Hdiff.
        exfalso. apply Hdiff. by apply UpdateNetworkFSConds_other.
      * rewrite (computed_ready_changed _ _ _ _ Hfirst Hne). cbn. intros _.
        unfold firstAddress in Hfirst.
        destruct (Subsets endpoint) as [|s rest]; [done|].
        destruct (Addresses s) as [|a' more] eqn:Ha; [done|]. injection Hfirst as ->.
        exists s, a. rewrite Ha. repeat split; try done.
        assert (endpointChangedCond (wallclock w (ticks w))
                  (changedMsg (IP a) (Endpoint (Status networkFS)))
                ∈ ofType ConditionTypeEndpointChanged
                    (UpdateNetworkFSConds
                       (UpdateNetworkFSConds (NetworkFSConds (Status networkFS))
                          (endpointChangedCond (wallclock w (ticks w))
                             (changedMsg (IP a) (Endpoint (Status networkFS)))))
                       (readyCond (wallclock w (S (ticks w)))))) as Hin.
        { rewrite UpdateNetworkFSConds_other by done.
          apply list_elem_of_filter. split; [done|]. apply UpdateNetworkFSConds_elem. }
        by apply list_elem_of_filter in Hin as [_ Hin].
    + rewrite (computed_not_ready _ _ _ Hfirst). cbn. intros Hdiff.
      exfalso. apply Hdiff. by apply UpdateNetworkFSConds_other.
Qed.

Lemma C10_endpoint_changed_only_with_live_address_witness :
  let endpoint := scenario.endpointOf "pvc-abc" [] in
  let changed := endpointChangedCond 800%Z (changedMsg "10.0.0.2" "") in
  let networkFS :=
    scenario.filesystem NetworkFSStateEnabled
      (mkStatus [changed; readyCond 801%Z] "10.0.0.2" EndpointStatusReady NetworkFSTypeNFS
         NetworkFSStateEnabling) in
  let w := scenario.world networkFS scenario.headless scenario.noFaults in
  passesGuards scenario.ctl endpoint w networkFS /\
  Endpoint (Status (computed endpoint networkFS w)) = "" /\
  ofType ConditionTypeEndpointChanged (NetworkFSConds (Status (computed endpoint networkFS w)))
    = [changed].
Proof.
  cbv zeta.
  assert (passesGuards scenario.ctl (scenario.endpointOf "pvc-abc" [])
            (scenario.world
               (scenario.filesystem NetworkFSStateEnabled
                  (mkStatus [endpointChangedCond 800%Z (changedMsg "10.0.0.2" "");
                             readyCond 801%Z]
                     "10.0.0.2" EndpointStatusReady NetworkFSTypeNFS NetworkFSStateEnabling))
               scenario.headless scenario.noFaults)
            (scenario.filesystem NetworkFSStateEnabled
               (mkStatus [endpointChangedCond 800%Z (changedMsg "10.0.0.2" "");
                          readyCond 801%Z]
                  "10.0.0.2" EndpointStatusReady NetworkFSTypeNFS NetworkFSStateEnabling)))
    as Hg.
  { repeat split; try (vm_compute; reflexivity).
    exists scenario.headless. split; vm_compute; reflexivity. }
  split; [exact Hg|].
  destruct (C10_endpoint_changed_only_with_live_address scenario.ctl "" _ _ _ Hg)
    as (_ & Hnone & _).
  destruct (Hnone (or_introl eq_refl)) as (Hep & _ & Hsame).
  split; [exact Hep|]. rewrite Hsame. reflexivity.
Defined.

(** ** Every invocation follows one of the paths *)

Lemma OnEndpointChange_path c key endpoint w :
  Path c endpoint w (OnEndpointChange c key endpoint w).
Proof.
  destruct endpoint as [endpoint|].
  2:{ rewrite OnEndpointChange_absent. apply path_ignored. by left. }
  destruct (decide (DeletionTimestamp (ep_ObjectMeta endpoint) = None)) as [Hdel|Hdel].
  2:{ rewrite (OnEndpointChange_deleting c key _ _ Hdel). apply path_ignored.
      right. exists endpoint. split; [done|by left]. }
  destruct (String.prefix "pvc-" (Name (ep_ObjectMeta endpoint))) eqn:Hpre.
  2:{ rewrite (OnEndpointChange_unrelated c key _ _ Hpre). apply path_ignored.
      right. exists endpoint. split; [done|by right]. }
  destruct (lookupFS w (namespace c) (Name (ep_ObjectMeta endpoint)))
    as [networkFS|e] eqn:Hfs.
  2:{ rewrite (OnEndpointChange_get_failed c key _ _ _ Hdel Hpre Hfs).
      by apply path_get_failed. }
  destruct (decide (DesiredState (Spec networkFS) = NetworkFSStateEnabled)) as [Hen|Hen].
  2:{ rewrite (OnEndpointChange_not_enabled c key _ _ _ Hdel Hpre Hfs Hen).
      by eapply path_not_enabled. }
  destruct (lookupService w LHNameSpace (Name (ep_ObjectMeta endpoint)))
    as [service|e] eqn:Hsvc.
  2:{ rewrite (OnEndpointChange_service_failed c key _ _ _ _ Hdel Hpre Hfs Hen Hsvc).
      by eapply path_service_failed. }
  destruct (decide (ClusterIP (svc_Spec service) = ClusterIPNone)) as [Hip|Hip].
  2:{ rewrite (OnEndpointChange_not_headless c key _ _ _ _ Hdel Hpre Hfs Hen Hsvc Hip).
      by eapply path_not_headless. }
  assert (passesGuards c endpoint w networkFS) as Hg.
  { repeat split; try done. by exists service. }
  destruct (OnEndpointChange_reconciles c key _ _ _ Hg) as [Hret Hlog].
  by eapply path_reconciled.
Qed.

(** ** Further properties of the handler *)

(** X1: a nil endpoint, or one marked for deletion, is dropped before
    anything else is looked at: nothing is requested, the clock is not read,
    the world is left as it was and the result is nil with no error, even
    when the name carries the prefix and every later guard would pass. *)
Theorem X1_absent_or_deleting_ignored c key endpoint w :
  (endpoint = None \/
   exists e, endpoint = Some e /\ DeletionTimestamp (ep_ObjectMeta e) <> None) ->
  OnEndpointChange c key endpoint w = ((None, None), w) /\
  issued w (OnEndpointChange c key endpoint w).2 = [].
Proof.
  intros [->|(e & -> & Hdel)].
  - rewrite OnEndpointChange_absent. split; [done|apply issued_refl].
  - rewrite (OnEndpointChange_deleting c key _ _ Hdel). split; [done|apply issued_refl].
Qed.

Lemma X1_absent_or_deleting_ignored_witness :
  let endpoint :=
    mkEndpoints (mkObjectMeta "pvc-abc" LHNameSpace (Some 990%Z))
      [scenario.subset ["10.0.0.5"]] in
  let w :=
    scenario.world (scenario.filesystem NetworkFSStateEnabled scenario.emptyStatus)
      scenario.headless scenario.noFaults in
  OnEndpointChange scenario.ctl "" (Some endpoint) w = ((None, None), w).
Proof.
  cbv zeta.
  apply (X1_absent_or_deleting_ignored scenario.ctl ""
           (Some (mkEndpoints (mkObjectMeta "pvc-abc" LHNameSpace (Some 990%Z))
                    [scenario.subset ["10.0.0.5"]]))).
  right. eexists. split; [reflexivity|]. cbn. discriminate.
Defined.

(** X2: when the NetworkFilesystem get fails, the invocation ends there: the
    get is its only request (the Service is not read, nothing is written),
    the clock is not read, the stores are untouched and the error of the get
    is returned with a nil object. *)
Theorem X2_filesystem_get_failure_stops c key endpoint w err :
  DeletionTimestamp (ep_ObjectMeta endpoint) = None ->
  String.prefix "pvc-" (Name (ep_ObjectMeta endpoint)) = true ->
  lookupFS w (namespace c) (Name (ep_ObjectMeta endpoint)) = Err err ->
  let out := OnEndpointChange c key (Some endpoint) w in
  out.1 = (None, Some err) /\
  issued w out.2 =
    [(GetNetworkFilesystem (namespace c) (Name (ep_ObjectMeta endpoint)), Some err)] /\
  netfs out.2 = netfs w /\ services out.2 = services w /\ ticks out.2 = ticks w.
Proof.
  intros Hdel Hpre Hfs. cbv zeta.
  rewrite (OnEndpointChange_get_failed c key _ _ _ Hdel Hpre Hfs). cbn [fst snd].
  by rewrite issued_record1.
Qed.

Lemma X2_filesystem_get_failure_stops_witness :
  let endpoint := scenario.endpointOf "pvc-other" [["10.0.0.5"]] in
  let w :=
    scenario.world (scenario.filesystem NetworkFSStateEnabled scenario.emptyStatus)
      scenario.headless scenario.noFaults in
  let err := NotFound "networkfilesystems" "harvester-system" "pvc-other" in
  (OnEndpointChange scenario.ctl "" (Some endpoint) w).1 = (None, Some err).
Proof.
  cbv zeta.
  apply (X2_filesystem_get_failure_stops scenario.ctl ""
           (scenario.endpointOf "pvc-other" [["10.0.0.5"]])).
  - reflexivity.
  - reflexivity.
  - vm_compute. reflexivity.
Defined.

(** X3: when the NetworkFilesystem is fetched and Enabled but the Service
    get fails, the invocation ends there: two requests, the second one
    failed, nothing written, the clock not read, the stores untouched, and
    the error of the Service get returned with a nil object. *)
Theorem X3_service_get_failure_stops c key endpoint networkFS w err :
  DeletionTimestamp (ep_ObjectMeta endpoint) = None ->
  String.prefix "pvc-" (Name (ep_ObjectMeta endpoint)) = true ->
  lookupFS w (namespace c) (Name (ep_ObjectMeta endpoint)) = Ok networkFS ->
  DesiredState (Spec networkFS) = NetworkFSStateEnabled ->
  lookupService w LHNameSpace (Name (ep_ObjectMeta endpoint)) = Err err ->
  let out := OnEndpointChange c key (Some endpoint) w in
  out.1 = (None, Some err) /\
  issued w out.2 =
    [(GetNetworkFilesystem (namespace c) (Name (ep_ObjectMeta endpoint)), None);
     (GetService LHNameSpace (Name (ep_ObjectMeta endpoint)), Some err)] /\
  statusWrites w out.2 = [] /\
  netfs out.2 = netfs w /\ services out.2 = services w /\ ticks out.2 = ticks w.
Proof.
  intros Hdel Hpre Hfs Hen Hsvc. cbv zeta.
  rewrite (OnEndpointChange_service_failed c key _ _ _ _ Hdel Hpre Hfs Hen Hsvc).
  unfold statusWrites. cbn [fst snd]. by rewrite issued_record2.
Qed.

Lemma X3_service_get_failure_stops_witness :
  let endpoint := scenario.endpointOf "pvc-abc" [["10.0.0.5"]] in
  let err := Failure "connection refused" in
  let plan := fun q => match q with GetService _ _ => Some err | _ => None end in
  let w :=
    scenario.world (scenario.filesystem NetworkFSStateEnabled scenario.emptyStatus)
      scenario.headless plan in
  (OnEndpointChange scenario.ctl "" (Some endpoint) w).1 = (None, Some err).
Proof.
  cbv zeta.
  apply (X3_service_get_failure_stops scenario.ctl ""
           (scenario.endpointOf "pvc-abc" [["10.0.0.5"]])
           (scenario.filesystem NetworkFSStateEnabled scenario.emptyStatus)).
  - reflexivity.
  - reflexivity.
  - vm_compute. reflexivity.
  - reflexivity.
  - vm_compute. reflexivity.
Defined.

(** X4: an invocation submits at most one status update, and only past the
    guards: whatever it submits is the resource computed from an endpoint
    that is present, not deleting and named with the prefix, a fetched
    resource that is Enabled and a fetched Service that is headless, and it
    differs from the fetched resource. *)
Theorem X4_writes_only_past_the_guards c key endpoint w :
  let out := OnEndpointChange c key endpoint w in
  length (statusWrites w out.2) <= 1 /\
  forall obj, obj ∈ statusWrites w out.2 ->
    exists e networkFS,
      endpoint = Some e /\ passesGuards c e w networkFS /\
      obj = computed e networkFS w /\ obj <> networkFS.
Proof.
  cbv zeta. generalize (OnEndpointChange_path c key endpoint w).
  generalize (OnEndpointChange c key endpoint w). intros out Hpath.
  destruct Hpath as [endpoint w _| | | | |endpoint w networkFS [ret w'] Hg _ Hlog];
    unfold statusWrites; cbn [fst snd] in *;
    rewrite ?issued_refl, ?issued_record1, ?issued_record2; cbn;
    try (split; [lia|by intros obj ?%elem_of_nil]).
  rewrite Hlog. destruct (decide (networkFS = computed endpoint networkFS w)) as [Heq|Hne]; cbn.
  - split; [lia|by intros obj ?%elem_of_nil].
  - split; [lia|]. intros obj ->%list_elem_of_singleton.
    exists endpoint, networkFS. repeat split; try done; apply Hg.
Qed.

Lemma X4_writes_only_past_the_guards_witness :
  let endpoint := scenario.endpointOf "pvc-abc" [["10.0.0.9"]] in
  let networkFS :=
    scenario.filesystem NetworkFSStateEnabled
      (mkStatus [] "10.0.0.2" EndpointStatusReady NetworkFSTypeNFS NetworkFSStateEnabling) in
  let w := scenario.world networkFS scenario.headless scenario.noFaults in
  let out := OnEndpointChange scenario.ctl "" (Some endpoint) w in
  computed endpoint networkFS w ∈ statusWrites w out.2 /\
  exists e fetched, Some endpoint = Some e /\ passesGuards scenario.ctl e w fetched /\
    computed endpoint networkFS w = computed e fetched w /\
    computed endpoint networkFS w <> fetched.
Proof.
  cbv zeta.
  assert (computed (scenario.endpointOf "pvc-abc" [["10.0.0.9"]])
            (scenario.filesystem NetworkFSStateEnabled
               (mkStatus [] "10.0.0.2" EndpointStatusReady NetworkFSTypeNFS
                  NetworkFSStateEnabling))
            (scenario.world
               (scenario.filesystem NetworkFSStateEnabled
                  (mkStatus [] "10.0.0.2" EndpointStatusReady NetworkFSTypeNFS
                     NetworkFSStateEnabling))
               scenario.headless scenario.noFaults)
          ∈ statusWrites
              (scenario.world
                 (scenario.filesystem NetworkFSStateEnabled
                    (mkStatus [] "10.0.0.2" EndpointStatusReady NetworkFSTypeNFS
                       NetworkFSStateEnabling))
                 scenario.headless scenario.noFaults)
              (OnEndpointChange scenario.ctl ""
                 (Some (scenario.endpointOf "pvc-abc" [["10.0.0.9"]]))
                 (scenario.world
                    (scenario.filesystem NetworkFSStateEnabled
                       (mkStatus [] "10.0.0.2" EndpointStatusReady NetworkFSTypeNFS
                          NetworkFSStateEnabling))
                    scenario.headless scenario.noFaults)).2) as Hin.
  { vm_compute. apply list_elem_of_here. }
  split; [exact Hin|].
  exact (proj2 (X4_writes_only_past_the_guards scenario.ctl "" _ _) _ Hin).
Defined.

(** X5: the requests of an invocation come in one fixed order and stop at
    the first failure: they are an initial part of "get the NetworkFilesystem
    of the controller's namespace under the endpoint's name, get the Service
    of the Longhorn namespace under the same name, update the status", never
    more than three, and only the last of them can have failed. *)
Theorem X5_requests_in_order c key endpoint w :
  let out := OnEndpointChange c key endpoint w in
  match endpoint with
  | None => issued w out.2 = []
  | Some e =>
      (fst <$> issued w out.2) `prefix_of`
        ([GetNetworkFilesystem (namespace c) (Name (ep_ObjectMeta e));
          GetService LHNameSpace (Name (ep_ObjectMeta e))] ++
         (UpdateStatus <$> statusWrites w out.2))%list
  end /\
  length (issued w out.2) <= 3 /\
  forall i q err,
    issued w out.2 !! i = Some (q, Some err) -> S i = length (issued w out.2).
Proof.
  cbv zeta. generalize (OnEndpointChange_path c key endpoint w).
  generalize (OnEndpointChange c key endpoint w). intros out Hpath.
  destruct Hpath as [endpoint w _| | | | |endpoint w networkFS [ret w'] Hg _ Hlog];
    unfold statusWrites; cbn [fst snd] in *;
    rewrite ?issued_refl, ?issued_record1, ?issued_record2; cbn.
  - split; [|split; [lia|by intros i q err ?]].
    destruct endpoint; [apply prefix_nil|done].
  - split; [by eexists|]. split; [lia|].
    intros [|i] rq re; [done|by intros ?].
  - split; [by eexists|]. split; [lia|].
    intros [|i] rq re; [done|by intros ?].
  - split; [by eexists|]. split; [lia|].
    intros [|[|i]] rq re; [done|done|by intros ?].
  - split; [by eexists|]. split; [lia|].
    intros [|[|i]] rq re; [done|done|by intros ?].
  - rewrite Hlog.
    destruct (decide (networkFS = computed endpoint networkFS w)); cbn.
    + split; [by eexists|]. split; [lia|].
      intros [|[|i]] rq re; [done|done|by intros ?].
    + split; [by eexists|]. split; [lia|].
      intros [|[|[|i]]] rq re; [done|done|done|by intros ?].
Qed.

(** X6: whatever an invocation submits carries the metadata and the spec of
    the resource it fetched; only the status differs.  In particular the
    submitted resource is Enabled and is addressed by the namespace and name
    of the fetched one. *)
Theorem X6_only_the_status_changes c key endpoint w :
  let out := OnEndpointChange c key endpoint w in
  forall obj, obj ∈ statusWrites w out.2 ->
    exists e networkFS,
      endpoint = Some e /\
      lookupFS w (namespace c) (Name (ep_ObjectMeta e)) = Ok networkFS /\
      fs_ObjectMeta obj = fs_ObjectMeta networkFS /\
      Spec obj = Spec networkFS /\
      DesiredState (Spec obj) = NetworkFSStateEnabled /\
      Status obj <> Status networkFS.
Proof.
  cbv zeta. generalize (OnEndpointChange_path c key endpoint w).
  generalize (OnEndpointChange c key endpoint w). intros out Hpath.
  destruct Hpath as [endpoint w _| | | | |endpoint w networkFS [ret w'] Hg _ Hlog];
    unfold statusWrites; cbn [fst snd] in *;
    rewrite ?issued_refl, ?issued_record1, ?issued_record2; cbn;
    try (by intros obj ?%elem_of_nil).
  rewrite Hlog. destruct (decide (networkFS = computed endpoint networkFS w)) as [Heq|Hne]; cbn.
  - by intros obj ?%elem_of_nil.
  - intros obj ->%list_elem_of_singleton.
    destruct Hg as (Hdel & Hpre & Hfs & Hen & _).
    exists endpoint, networkFS.
    assert (fs_ObjectMeta (computed endpoint networkFS w) = fs_ObjectMeta networkFS /\
            Spec (computed endpoint networkFS w) = Spec networkFS) as [Hmeta Hspec].
    { destruct (firstAddress endpoint) as [a|] eqn:Hfirst.
      - destruct (decide (Endpoint (Status networkFS) = IP a)) as [Hsame|Hdiff].
        + by rewrite (computed_ready_same _ _ _ _ Hfirst Hsame).
        + by rewrite (computed_ready_changed _ _ _ _ Hfirst Hdiff).
      - by rewrite (computed_not_ready _ _ _ Hfirst). }
    repeat split; try done.
    + by rewrite Hspec.
    + intros Hstatus. apply Hne.
      destruct networkFS as [m s st], (computed endpoint (mkNetworkFilesystem m s st) w)
        as [m' s' st'].
      cbn in *. by subst.
Qed.

Lemma X6_only_the_status_changes_witness :
  let endpoint := scenario.endpointOf "pvc-abc" [["10.0.0.9"]] in
  let networkFS :=
    scenario.filesystem NetworkFSStateEnabled
      (mkStatus [] "10.0.0.2" EndpointStatusReady NetworkFSTypeNFS NetworkFSStateEnabling) in
  let w := scenario.world networkFS scenario.headless scenario.noFaults in
  let out := OnEndpointChange scenario.ctl "" (Some endpoint) w in
  computed endpoint networkFS w ∈ statusWrites w out.2 /\
  exists e fetched, Some endpoint = Some e /\
    lookupFS w (namespace scenario.ctl) (Name (ep_ObjectMeta e)) = Ok fetched /\
    fs_ObjectMeta (computed endpoint networkFS w) = fs_ObjectMeta fetched /\
    Spec (computed endpoint networkFS w) = Spec fetched /\
    DesiredState (Spec (computed endpoint networkFS w)) = NetworkFSStateEnabled /\
    Status (computed endpoint networkFS w) <> Status fetched.
Proof.
  cbv zeta.
  assert (computed (scenario.endpointOf "pvc-abc" [["10.0.0.9"]])
            (scenario.filesystem NetworkFSStateEnabled
               (mkStatus [] "10.0.0.2" EndpointStatusReady NetworkFSTypeNFS
                  NetworkFSStateEnabling))
            (scenario.world
               (scenario.filesystem NetworkFSStateEnabled
                  (mkStatus [] "10.0.0.2" EndpointStatusReady NetworkFSTypeNFS
                     NetworkFSStateEnabling))
               scenario.headless scenario.noFaults)
          ∈ statusWrites
              (scenario.world
                 (scenario.filesystem NetworkFSStateEnabled
                    (mkStatus [] "10.0.0.2" EndpointStatusReady NetworkFSTypeNFS
                       NetworkFSStateEnabling))
                 scenario.headless scenario.noFaults)
              (OnEndpointChange scenario.ctl ""
                 (Some (scenario.endpointOf "pvc-abc" [["10.0.0.9"]]))
                 (scenario.world
                    (scenario.filesystem NetworkFSStateEnabled
                       (mkStatus [] "10.0.0.2" EndpointStatusReady NetworkFSTypeNFS
                          NetworkFSStateEnabling))
                    scenario.headless scenario.noFaults)).2) as Hin.
  { vm_compute. apply list_elem_of_here. }
  split; [exact Hin|].
  exact (X6_only_the_status_changes scenario.ctl "" _ _ _ Hin).
Defined.

(** The block looks at the endpoint through the address of its first
    subset's first entry only. *)
Lemma prospective_first_address endpoint1 endpoint2 networkFS w :
  IP <$> firstAddress endpoint1 = IP <$> firstAddress endpoint2 ->
  prospective endpoint1 networkFS w = prospective endpoint2 networkFS w.
Proof.
  unfold prospective.
  destruct (firstAddress endpoint1) as [a1|], (firstAddress endpoint2) as [a2|];
    cbn; intros Hip; try done.
  injection Hip as Hip. by rewrite Hip.
Qed.

Lemma computed_fields endpoint networkFS w :
  Endpoint (Status (computed endpoint networkFS w)) = derivedEndpoint endpoint /\
  st_Status (Status (computed endpoint networkFS w)) = derivedStatus endpoint /\
  st_Type (Status (computed endpoint networkFS w)) = NetworkFSTypeNFS /\
  st_State (Status (computed endpoint networkFS w)) = NetworkFSStateEnabling.
Proof.
  unfold derivedEndpoint, derivedStatus.
  destruct (firstAddress endpoint) as [a|] eqn:Hfirst.
  - destruct (decide (Endpoint (Status networkFS) = IP a)) as [Hsame|Hdiff].
    + by rewrite (computed_ready_same _ _ _ _ Hfirst Hsame).
    + by rewrite (computed_ready_changed _ _ _ _ Hfirst Hdiff).
  - by rewrite (computed_not_ready _ _ _ Hfirst).
Qed.

(** X7: whatever the fetched resource and its history, the computed status
    is Ready exactly when the first subset of the endpoint has a first
    address and NotReady exactly when there is no subset or the first one
    has no address; its Endpoint is that address, or empty when there is
    none; its Type is NFS and its State Enabling, so the State is never set
    to the Enabled the resource asks for. *)
Theorem X7_status_follows_first_address endpoint networkFS w :
  let status := Status (computed endpoint networkFS w) in
  (st_Status status = EndpointStatusReady <->
   exists subset0 address0,
     Subsets endpoint !! 0 = Some subset0 /\ Addresses subset0 !! 0 = Some address0 /\
     Endpoint status = IP address0) /\
  (st_Status status = EndpointStatusNotReady <->
   length (Subsets endpoint) = 0 \/
   exists subset0, Subsets endpoint !! 0 = Some subset0 /\ length (Addresses subset0) = 0) /\
  (st_Status status = EndpointStatusNotReady -> Endpoint status = "") /\
  st_Type status = NetworkFSTypeNFS /\
  st_State status = NetworkFSStateEnabling /\
  st_State status <> NetworkFSStateEnabled.
Proof.
  cbv zeta. destruct (computed_fields endpoint networkFS w) as (Hep & Hst & Hty & Hstate).
  rewrite Hep, Hst, Hty, Hstate. unfold derivedStatus, derivedEndpoint.
  rewrite <- firstAddress_None.
  unfold firstAddress. destruct (Subsets endpoint) as [|s rest]; cbn.
  - repeat split; try done. by intros (? & ? & ? & _).
  - destruct (Addresses s) as [|a more] eqn:Ha; cbn.
    + repeat split; try done. intros (s' & a' & [= <-] & Hnone & _). by rewrite Ha in Hnone.
    + repeat split; try done. intros _. exists s, a. by rewrite Ha.
Qed.

(** X8: past the guards, a stored status that is out of date is always
    overwritten: when the stored Endpoint, Status, Type or State differs
    from the value derived from the endpoint (a State other than Enabling
    included), exactly one status update is submitted and it carries the
    derived values. *)
Theorem X8_stale_status_is_written c key endpoint networkFS w :
  passesGuards c endpoint w networkFS ->
  (Endpoint (Status networkFS) <> derivedEndpoint endpoint \/
   st_Status (Status networkFS) <> derivedStatus endpoint \/
   st_Type (Status networkFS) <> NetworkFSTypeNFS \/
   st_State (Status networkFS) <> NetworkFSStateEnabling) ->
  let out := OnEndpointChange c key (Some endpoint) w in
  exists obj,
    statusWrites w out.2 = [obj] /\
    Endpoint (Status obj) = derivedEndpoint endpoint /\
    st_Status (Status obj) = derivedStatus endpoint /\
    st_Type (Status obj) = NetworkFSTypeNFS /\
    st_State (Status obj) = NetworkFSStateEnabling.
Proof.
  intros Hg Hstale. cbv zeta. exists (computed endpoint networkFS w).
  split; [|apply computed_fields].
  rewrite (statusWrites_reconciles _ _ _ _ _ Hg).
  destruct (decide (networkFS = computed endpoint networkFS w)) as [Heq|]; [|done].
  destruct (computed_fields endpoint networkFS w) as (Hep & Hst & Hty & Hstate).
  rewrite <- Heq in Hep, Hst, Hty, Hstate.
  by destruct Hstale as [?|[?|[?|?]]].
Qed.

Lemma X8_stale_status_is_written_witness :
  let endpoint := scenario.endpointOf "pvc-abc" [["10.0.0.5"]] in
  let networkFS :=
    scenario.filesystem NetworkFSStateEnabled
      (mkStatus [readyCond 1000%Z] "10.0.0.5" EndpointStatusReady NetworkFSTypeNFS
         NetworkFSStateEnabled) in
  let w := scenario.world networkFS scenario.headless scenario.noFaults in
  let out := OnEndpointChange scenario.ctl "" (Some endpoint) w in
  passesGuards scenario.ctl endpoint w networkFS /\
  st_State (Status networkFS) <> NetworkFSStateEnabling /\
  exists obj, statusWrites w out.2 = [obj] /\
    Endpoint (Status obj) = derivedEndpoint endpoint /\
    st_Status (Status obj) = derivedStatus endpoint /\
    st_Type (Status obj) = NetworkFSTypeNFS /\
    st_State (Status obj) = NetworkFSStateEnabling.
Proof.
  cbv zeta.
  assert (passesGuards scenario.ctl (scenario.endpointOf "pvc-abc" [["10.0.0.5"]])
            (scenario.world
               (scenario.filesystem NetworkFSStateEnabled
                  (mkStatus [readyCond 1000%Z] "10.0.0.5" EndpointStatusReady
                     NetworkFSTypeNFS NetworkFSStateEnabled))
               scenario.headless scenario.noFaults)
            (scenario.filesystem NetworkFSStateEnabled
               (mkStatus [readyCond 1000%Z] "10.0.0.5" EndpointStatusReady
                  NetworkFSTypeNFS NetworkFSStateEnabled))) as Hg.
  { repeat split; try (vm_compute; reflexivity).
    exists scenario.headless. split; vm_compute; reflexivity. }
  assert (st_State
            (Status
               (scenario.filesystem NetworkFSStateEnabled
                  (mkStatus [readyCond 1000%Z] "10.0.0.5" EndpointStatusReady
                     NetworkFSTypeNFS NetworkFSStateEnabled)))
          <> NetworkFSStateEnabling) as Hstate by (vm_compute; discriminate).
  split; [exact Hg|]. split; [exact Hstate|].
  apply (X8_stale_status_is_written scenario.ctl "" _ _ _ Hg).
  right. right. right. exact Hstate.
Defined.

(** X9: an invocation depends on the endpoint only through its metadata and
    the address of its first subset's first entry: two endpoints that agree
    on these are handled alike (same result, same requests, same world
    left), whatever their later subsets, later addresses, not-ready
    addresses and host names. *)
Theorem X9_only_first_address_matters c key endpoint1 endpoint2 w :
  ep_ObjectMeta endpoint1 = ep_ObjectMeta endpoint2 ->
  IP <$> firstAddress endpoint1 = IP <$> firstAddress endpoint2 ->
  OnEndpointChange c key (Some endpoint1) w = OnEndpointChange c key (Some endpoint2) w.
Proof.
  intros Hmeta Hfirst. unfold OnEndpointChange, bind. rewrite Hmeta.
  case_bool_decide; [done|].
  destruct (String.prefix _ _); cbn [negb]; [|done].
  destruct (NetworkFilsystems_Get _ _ w) as [[networkFS|err] w1]; [|done].
  case_bool_decide; [done|].
  destruct (serviceClient_Get _ _ w1) as [[service|err] w2]; [|done].
  case_bool_decide; [done|].
  by rewrite (prospective_first_address _ _ _ _ Hfirst).
Qed.

Lemma X9_only_first_address_matters_witness :
  let endpoint1 := scenario.endpointOf "pvc-abc" [["10.0.0.5"]] in
  let endpoint2 :=
    mkEndpoints (scenario.meta LHNameSpace "pvc-abc")
      [mkEndpointSubset
         [mkEndpointAddress "10.0.0.5" "nfs-0"; mkEndpointAddress "10.0.0.6" "nfs-1"]
         [mkEndpointAddress "10.0.0.7" "nfs-2"];
       scenario.subset ["10.0.0.8"]] in
  let w :=
    scenario.world (scenario.filesystem NetworkFSStateEnabled scenario.emptyStatus)
      scenario.headless scenario.noFaults in
  OnEndpointChange scenario.ctl "" (Some endpoint1) w
  = OnEndpointChange scenario.ctl "" (Some endpoint2) w.
Proof.
  cbv zeta.
  apply (X9_only_first_address_matters scenario.ctl ""
           (scenario.endpointOf "pvc-abc" [["10.0.0.5"]])
           (mkEndpoints (scenario.meta LHNameSpace "pvc-abc")
              [mkEndpointSubset
                 [mkEndpointAddress "10.0.0.5" "nfs-0"; mkEndpointAddress "10.0.0.6" "nfs-1"]
                 [mkEndpointAddress "10.0.0.7" "nfs-2"];
               scenario.subset ["10.0.0.8"]])).
  - reflexivity.
  - reflexivity.
Defined.
